(** * Trigger arbitration of the finger drum kit ([virtual_drumkit.py])

    A shallow embedding of the gesture classification and trigger
    arbitration of [VirtualDrumkit]: the per-channel position history, the
    two motion tests, [can_trigger_sound], [update_mode_parameters] and the
    landmark loop of [process_frame].

    Python [float] is IEEE 754 binary64 and is modelled by Rocq's primitive
    floats, Python [int] by [Z], [dict] with string keys by [gmap string].
    Drawing on the video frame ([cv2.putText], [cv2.circle]) and [print] do
    not touch the engine and are left out; a call of [sound.sound.play()] is
    recorded in a log of channel keys. *)

From Stdlib Require Import ZArith List Bool Lia.
From Stdlib Require Import Floats.
From stdpp Require Import base option list strings gmap.
Import ListNotations.

Set Warnings "-inexact-float".
Local Open Scope string_scope.
Local Open Scope Z_scope.

(** ** Data model *)

Inductive Mode := TRAINING | PRACTICE | PERFORMANCE | EXPERT | CUSTOM.

Definition Mode_eqb (a b : Mode) : bool :=
  match a, b with
  | TRAINING, TRAINING | PRACTICE, PRACTICE | PERFORMANCE, PERFORMANCE
  | EXPERT, EXPERT | CUSTOM, CUSTOM => true
  | _, _ => false
  end.

(** A loaded [pygame.mixer.Sound]: the file it was read from and the volume
    set on it. *)
Record Sound := { snd_file : string; snd_volume : float }.

(** The dataclass [FingerSound]. [sound = None] is a sound file that was not
    found. *)
Module FingerSound.
Record t := Build {
  name : string;
  sound_file : string;
  sound : option Sound;
  last_trigger_time : float;
  cooldown : float;
  last_positions : list float;
  is_moving_down : bool;
  volume : float;
  is_active : bool;
  skill_level : Z
}.

(** [FingerSound(name, sound_file, skill_level=k)] with the dataclass
    defaults, after [__post_init__]. *)
Definition make (n f : string) (k : Z) : t :=
  Build n f None 0%float 0.15%float [] false 0.7%float true k.

Definition set_sound (s : t) (v : option Sound) : t :=
  Build (name s) (sound_file s) v (last_trigger_time s) (cooldown s)
        (last_positions s) (is_moving_down s) (volume s) (is_active s)
        (skill_level s).
Definition set_last_trigger_time (s : t) (v : float) : t :=
  Build (name s) (sound_file s) (sound s) v (cooldown s)
        (last_positions s) (is_moving_down s) (volume s) (is_active s)
        (skill_level s).
Definition set_last_positions (s : t) (v : list float) : t :=
  Build (name s) (sound_file s) (sound s) (last_trigger_time s) (cooldown s)
        v (is_moving_down s) (volume s) (is_active s) (skill_level s).
Definition set_is_moving_down (s : t) (v : bool) : t :=
  Build (name s) (sound_file s) (sound s) (last_trigger_time s) (cooldown s)
        (last_positions s) v (volume s) (is_active s) (skill_level s).
Definition set_volume (s : t) (v : float) : t :=
  Build (name s) (sound_file s) (sound s) (last_trigger_time s) (cooldown s)
        (last_positions s) (is_moving_down s) v (is_active s)
        (skill_level s).
Definition set_is_active (s : t) (v : bool) : t :=
  Build (name s) (sound_file s) (sound s) (last_trigger_time s) (cooldown s)
        (last_positions s) (is_moving_down s) (volume s) v (skill_level s).
End FingerSound.

(** One entry of [mode_parameters]: the dict with the keys
    ["down_threshold"], ["up_threshold"] and ["hand_cooldown"]. *)
Record ModeParams := {
  p_down_threshold : float;
  p_up_threshold : float;
  p_hand_cooldown : float
}.

(** The attributes of [VirtualDrumkit]. The MediaPipe handles ([mp_hands],
    [hands], [mp_draw]) are external objects and are not modelled. *)
Record VirtualDrumkit := {
  current_mode : Mode;
  skill_level : Z;
  last_hand_trigger_time : gmap string float;
  hand_cooldown : float;
  finger_sounds : gmap string FingerSound.t;
  history_size : Z;
  mode_parameters : list (Mode * ModeParams);
  down_threshold : float;
  up_threshold : float;
  finger_indices : list (string * nat);
  pattern_history : list string;
  pattern_window : float
}.

Definition set_current_mode (self : VirtualDrumkit) (m : Mode) :=
  {| current_mode := m;
     skill_level := skill_level self;
     last_hand_trigger_time := last_hand_trigger_time self;
     hand_cooldown := hand_cooldown self;
     finger_sounds := finger_sounds self;
     history_size := history_size self;
     mode_parameters := mode_parameters self;
     down_threshold := down_threshold self;
     up_threshold := up_threshold self;
     finger_indices := finger_indices self;
     pattern_history := pattern_history self;
     pattern_window := pattern_window self |}.

Definition set_skill_level (self : VirtualDrumkit) (k : Z) :=
  {| current_mode := current_mode self;
     skill_level := k;
     last_hand_trigger_time := last_hand_trigger_time self;
     hand_cooldown := hand_cooldown self;
     finger_sounds := finger_sounds self;
     history_size := history_size self;
     mode_parameters := mode_parameters self;
     down_threshold := down_threshold self;
     up_threshold := up_threshold self;
     finger_indices := finger_indices self;
     pattern_history := pattern_history self;
     pattern_window := pattern_window self |}.

Definition set_finger_sounds (self : VirtualDrumkit)
    (m : gmap string FingerSound.t) :=
  {| current_mode := current_mode self;
     skill_level := skill_level self;
     last_hand_trigger_time := last_hand_trigger_time self;
     hand_cooldown := hand_cooldown self;
     finger_sounds := m;
     history_size := history_size self;
     mode_parameters := mode_parameters self;
     down_threshold := down_threshold self;
     up_threshold := up_threshold self;
     finger_indices := finger_indices self;
     pattern_history := pattern_history self;
     pattern_window := pattern_window self |}.

(** The three assignments of [update_mode_parameters]. *)
Definition set_mode_values (self : VirtualDrumkit) (p : ModeParams) :=
  {| current_mode := current_mode self;
     skill_level := skill_level self;
     last_hand_trigger_time := last_hand_trigger_time self;
     hand_cooldown := p_hand_cooldown p;
     finger_sounds := finger_sounds self;
     history_size := history_size self;
     mode_parameters := mode_parameters self;
     down_threshold := p_down_threshold p;
     up_threshold := p_up_threshold p;
     finger_indices := finger_indices self;
     pattern_history := pattern_history self;
     pattern_window := pattern_window self |}.

(** The hand-level cooldown state, written as a whole (used to compare
    engines that differ only there). *)
Definition set_hand_state (self : VirtualDrumkit) (hc : float)
    (lt : gmap string float) :=
  {| current_mode := current_mode self;
     skill_level := skill_level self;
     last_hand_trigger_time := lt;
     hand_cooldown := hc;
     finger_sounds := finger_sounds self;
     history_size := history_size self;
     mode_parameters := mode_parameters self;
     down_threshold := down_threshold self;
     up_threshold := up_threshold self;
     finger_indices := finger_indices self;
     pattern_history := pattern_history self;
     pattern_window := pattern_window self |}.

(** ** Mode profiles *)

(** [self.mode_parameters] as [__init__] builds it: four entries, none for
    [Mode.CUSTOM]. *)
Definition initial_mode_parameters : list (Mode * ModeParams) :=
  [ (TRAINING,    {| p_down_threshold := 0.002%float;
                     p_up_threshold := 0.001%float;
                     p_hand_cooldown := 0.2%float |});
    (PRACTICE,    {| p_down_threshold := 0.0015%float;
                     p_up_threshold := 0.001%float;
                     p_hand_cooldown := 0.15%float |});
    (PERFORMANCE, {| p_down_threshold := 0.001%float;
                     p_up_threshold := 0.0008%float;
                     p_hand_cooldown := 0.1%float |});
    (EXPERT,      {| p_down_threshold := 0.0008%float;
                     p_up_threshold := 0.0005%float;
                     p_hand_cooldown := 0.05%float |}) ].

(** [d[m]] guarded by [m in d]: the first entry with key [m]. *)
Fixpoint mode_lookup (d : list (Mode * ModeParams)) (m : Mode)
    : option ModeParams :=
  match d with
  | [] => None
  | (m', p) :: d' => if Mode_eqb m m' then Some p else mode_lookup d' m
  end.

Definition update_mode_parameters (self : VirtualDrumkit) : VirtualDrumkit :=
  match mode_lookup (mode_parameters self) (current_mode self) with
  | Some params => set_mode_values self params
  | None => self
  end.

(** The sidebar of [main]: [drumkit.current_mode = Mode(mode)] followed by
    [drumkit.update_mode_parameters()]. *)
Definition select_mode (self : VirtualDrumkit) (m : Mode) : VirtualDrumkit :=
  update_mode_parameters (set_current_mode self m).

(** ** Motion tests *)

(** [len(xs)] as the float the division by it converts it to. *)
Definition float_of_len (n : nat) : float :=
  PrimFloat.of_uint63 (Uint63.of_Z (Z.of_nat n)).

(** [[positions[i] - positions[i - 1] for i in range(1, len(positions))]] *)
Definition motions (positions : list float) : list float :=
  map (fun i => PrimFloat.sub (nth i positions 0%float)
                              (nth (i - 1)%nat positions 0%float))
      (seq 1 (length positions - 1)).

(** [sum(motions)]: left to right from [0]. *)
Definition sum (xs : list float) : float :=
  fold_left PrimFloat.add xs 0%float.

Definition avg_motion (positions : list float) : float :=
  PrimFloat.div (sum (motions positions))
                (float_of_len (length (motions positions))).

Definition detect_downward_motion (self : VirtualDrumkit)
    (positions : list float) : bool :=
  if (Z.of_nat (length positions) <? 2) then false
  else PrimFloat.ltb (down_threshold self) (avg_motion positions).

Definition detect_upward_motion (self : VirtualDrumkit)
    (positions : list float) : bool :=
  if (Z.of_nat (length positions) <? 2) then false
  else PrimFloat.ltb (avg_motion positions) (PrimFloat.opp (up_threshold self)).

(** ** Firing permission *)

Definition can_trigger_sound (self : VirtualDrumkit) (hand_side : string)
    (sound : FingerSound.t) (current_time : float) : bool :=
  if FingerSound.skill_level sound >? skill_level self then false
  else if PrimFloat.ltb
            (PrimFloat.sub current_time (FingerSound.last_trigger_time sound))
            (FingerSound.cooldown sound)
       then false
       else true.

(** ** One visit of a channel by the landmark loop *)

(** [sound.last_positions.append(relative_y)], and [pop(0)] when the list has
    grown past [history_size]. *)
Definition push_position (self : VirtualDrumkit) (positions : list float)
    (relative_y : float) : list float :=
  let ps := (positions ++ [relative_y])%list in
  if Z.of_nat (length ps) >? history_size self then tail ps else ps.

(** The body of the finger loop of [process_frame] from the append on, for a
    channel that passed the skill check: the channel after the visit and
    whether [sound.sound.play()] was called. *)
Definition finger_step (self : VirtualDrumkit) (hand_side : string)
    (sound : FingerSound.t) (relative_y current_time : float)
    : FingerSound.t * bool :=
  let sound1 :=
    FingerSound.set_last_positions sound
      (push_position self (FingerSound.last_positions sound) relative_y) in
  let is_moving_down :=
    detect_downward_motion self (FingerSound.last_positions sound1) in
  let is_moving_up :=
    detect_upward_motion self (FingerSound.last_positions sound1) in
  if is_moving_down && negb (FingerSound.is_moving_down sound1) then
    let '(sound2, played) :=
      if can_trigger_sound self hand_side sound1 current_time then
        if bool_decide (is_Some (FingerSound.sound sound1))
           && FingerSound.is_active sound1
        then (FingerSound.set_last_trigger_time sound1 current_time, true)
        else (sound1, false)
      else (sound1, false) in
    (FingerSound.set_is_moving_down sound2 true, played)
  else if is_moving_up then
    (FingerSound.set_is_moving_down sound1 false, false)
  else (sound1, false).

(** ** Frames *)

(** A landmark of MediaPipe, in normalized image coordinates. *)
Record Landmark := { lm_x : float; lm_y : float }.

(** [hand_landmarks.landmark] of one detected hand. *)
Definition HandLandmarks := list Landmark.

(** What [process_frame] reads: [results.multi_hand_landmarks] ([None] and
    the empty list both skip the loop) and [time.time()]. *)
Record Frame := {
  multi_hand_landmarks : list HandLandmarks;
  frame_time : float
}.

(** [f"{hand_side}_{finger_name}"] *)
Definition finger_key (hand_side finger_name : string) : string :=
  hand_side +:+ "_" +:+ finger_name.

(** One iteration of [for finger_name, tip_idx in self.finger_indices.items()].
    [None] is the [IndexError] of [landmark[tip_idx]]. The log [played]
    collects the keys of the channels whose sound was played. *)
Definition process_finger (self : VirtualDrumkit) (hand_side : string)
    (hand_landmarks : HandLandmarks) (wrist_y current_time : float)
    (played : list string) (finger : string * nat)
    : option (VirtualDrumkit * list string) :=
  let '(finger_name, tip_idx) := finger in
  let key := finger_key hand_side finger_name in
  match finger_sounds self !! key with
  | None => Some (self, played)
  | Some sound =>
      if FingerSound.skill_level sound >? skill_level self
      then Some (self, played)
      else
        match nth_error hand_landmarks tip_idx with
        | None => None
        | Some tip =>
            let relative_y := PrimFloat.sub (lm_y tip) wrist_y in
            let '(sound', fired) :=
              finger_step self hand_side sound relative_y current_time in
            Some (set_finger_sounds self (<[key := sound']> (finger_sounds self)),
                  if fired then (played ++ [key])%list else played)
        end
  end.

Fixpoint process_fingers (self : VirtualDrumkit) (hand_side : string)
    (hand_landmarks : HandLandmarks) (wrist_y current_time : float)
    (played : list string) (fingers : list (string * nat))
    : option (VirtualDrumkit * list string) :=
  match fingers with
  | [] => Some (self, played)
  | finger :: rest =>
      match process_finger self hand_side hand_landmarks wrist_y current_time
                           played finger with
      | None => None
      | Some (self', played') =>
          process_fingers self' hand_side hand_landmarks wrist_y current_time
                          played' rest
      end
  end.

(** The body of [for hand_idx, hand_landmarks in enumerate(...)]. [None] is
    the [IndexError] of [landmark[0]] or of a finger tip. *)
Definition process_hand (self : VirtualDrumkit) (hand_idx : nat)
    (hand_landmarks : HandLandmarks) (current_time : float)
    (played : list string) : option (VirtualDrumkit * list string) :=
  let hand_side := if Nat.eqb hand_idx 0 then "LEFT" else "RIGHT" in
  match nth_error hand_landmarks 0 with
  | None => None
  | Some wrist =>
      process_fingers self hand_side hand_landmarks (lm_y wrist) current_time
                      played (finger_indices self)
  end.

Fixpoint process_hands (self : VirtualDrumkit) (hand_idx : nat)
    (hands : list HandLandmarks) (current_time : float)
    (played : list string) : option (VirtualDrumkit * list string) :=
  match hands with
  | [] => Some (self, played)
  | hand_landmarks :: rest =>
      match process_hand self hand_idx hand_landmarks current_time played with
      | None => None
      | Some (self', played') =>
          process_hands self' (S hand_idx) rest current_time played'
      end
  end.

(** [process_frame]: the engine after the frame and the channels played, in
    order; [None] when the frame raised. *)
Definition process_frame (self : VirtualDrumkit) (frame : Frame)
    : option (VirtualDrumkit * list string) :=
  process_hands self 0 (multi_hand_landmarks frame) (frame_time frame) [].

(** The capture loop of [main] over a list of frames: the logs of the
    frames, one per frame. *)
Fixpoint process_frames (self : VirtualDrumkit) (frames : list Frame)
    : option (VirtualDrumkit * list (list string)) :=
  match frames with
  | [] => Some (self, [])
  | frame :: rest =>
      match process_frame self frame with
      | None => None
      | Some (self', played) =>
          match process_frames self' rest with
          | None => None
          | Some (self'', log) => Some (self'', played :: log)
          end
      end
  end.

(** ** Construction *)

(** [needle in s] on strings. *)
Fixpoint str_contains (needle s : string) : bool :=
  if String.prefix needle s then true
  else match s with
       | EmptyString => false
       | String _ s' => str_contains needle s'
       end.

(** The sound-loading loop of [__init__] on one channel; [file_exists] is
    [os.path.exists]. *)
Definition load_sound (file_exists : string -> bool) (sound : FingerSound.t)
    : FingerSound.t :=
  if file_exists (FingerSound.sound_file sound) then
    let sound1 :=
      if str_contains "Kick" (FingerSound.name sound)
      then FingerSound.set_volume sound 0.8%float
      else if str_contains "Cymbal" (FingerSound.name sound)
      then FingerSound.set_volume sound 0.6%float
      else sound in
    FingerSound.set_sound sound1
      (Some {| snd_file := FingerSound.sound_file sound1;
               snd_volume := FingerSound.volume sound1 |})
  else sound.

Definition initial_finger_sounds : gmap string FingerSound.t :=
  list_to_map
    [ ("RIGHT_INDEX",  FingerSound.make "Snare" "TR-808 Kit/Snare Mid.wav" 1);
      ("RIGHT_MIDDLE", FingerSound.make "Hi-Hat" "TR-808 Kit/Hihat.wav" 1);
      ("RIGHT_THUMB",  FingerSound.make "Kick" "TR-808 Kit/Kick Basic.wav" 1);
      ("RIGHT_RING",   FingerSound.make "Clap" "TR-808 Kit/Clap.wav" 2);
      ("RIGHT_PINKY",  FingerSound.make "Cymbal" "TR-808 Kit/Cymbal.wav" 2);
      ("LEFT_INDEX",   FingerSound.make "Tom Mid" "TR-808 Kit/Tom Mid.wav" 2);
      ("LEFT_THUMB",   FingerSound.make "Tom Low" "TR-808 Kit/Tom Low.wav" 3);
      ("LEFT_MIDDLE",  FingerSound.make "Tom High" "TR-808 Kit/Tom High.wav" 3);
      ("LEFT_RING",    FingerSound.make "Cowbell" "TR-808 Kit/Cowbell.wav" 3);
      ("LEFT_PINKY",   FingerSound.make "Rimshot" "TR-808 Kit/Rimshot.wav" 3) ].

Definition initial_finger_indices : list (string * nat) :=
  [ ("THUMB", 4%nat); ("INDEX", 8%nat); ("MIDDLE", 12%nat);
    ("RING", 16%nat); ("PINKY", 20%nat) ].

(** [VirtualDrumkit()]. The two thresholds are first bound by the call of
    [update_mode_parameters]; before it they hold the values that call is
    about to assign. *)
Definition init (file_exists : string -> bool) : VirtualDrumkit :=
  let self0 :=
    {| current_mode := TRAINING;
       skill_level := 1;
       last_hand_trigger_time :=
         list_to_map [("LEFT", 0%float); ("RIGHT", 0%float)];
       hand_cooldown := 0.1%float;
       finger_sounds := initial_finger_sounds;
       history_size := 4;
       mode_parameters := initial_mode_parameters;
       down_threshold := 0.002%float;
       up_threshold := 0.001%float;
       finger_indices := initial_finger_indices;
       pattern_history := [];
       pattern_window := 2%float |} in
  let self1 := update_mode_parameters self0 in
  set_finger_sounds self1 (load_sound file_exists <$> finger_sounds self1).

(** The sidebar of [main]: the enable checkbox of one channel,
    [sound.is_active = st.checkbox(...)], shown for the channels within the
    skill level. *)
Definition set_enabled (self : VirtualDrumkit) (key : string) (v : bool)
    : VirtualDrumkit :=
  match finger_sounds self !! key with
  | Some sound =>
      if FingerSound.skill_level sound <=? skill_level self
      then set_finger_sounds self
             (<[key := FingerSound.set_is_active sound v]> (finger_sounds self))
      else self
  | None => self
  end.

(** ** A channel over several visits *)

(** [finger_step] along a list of visits [(relative_y, current_time)]: the
    channel at the end and, per visit, whether its sound was played. *)
Fixpoint channel_run (self : VirtualDrumkit) (hand_side : string)
    (sound : FingerSound.t) (visits : list (float * float))
    : FingerSound.t * list bool :=
  match visits with
  | [] => (sound, [])
  | (relative_y, current_time) :: rest =>
      let '(sound1, fired) :=
        finger_step self hand_side sound relative_y current_time in
      let '(sound2, log) := channel_run self hand_side sound1 rest in
      (sound2, fired :: log)
  end.

(** The number of firings in a log of [channel_run]. *)
Fixpoint firings (log : list bool) : nat :=
  match log with
  | [] => 0%nat
  | fired :: rest => ((if fired then 1 else 0) + firings rest)%nat
  end.

(** A visit is a Down edge when the downward test holds on the updated
    history and the channel is not latched. *)
Definition down_edge (self : VirtualDrumkit) (sound : FingerSound.t)
    (relative_y : float) : bool :=
  detect_downward_motion self
    (push_position self (FingerSound.last_positions sound) relative_y)
  && negb (FingerSound.is_moving_down sound).

(** The classification of a visit by the two tests. *)
Definition classified_down (self : VirtualDrumkit) (sound : FingerSound.t)
    (relative_y : float) : bool :=
  detect_downward_motion self
    (push_position self (FingerSound.last_positions sound) relative_y).

Definition classified_up (self : VirtualDrumkit) (sound : FingerSound.t)
    (relative_y : float) : bool :=
  detect_upward_motion self
    (push_position self (FingerSound.last_positions sound) relative_y).

(** Every visit of the run is classified Down and none is classified Up. *)
Fixpoint sustained_down (self : VirtualDrumkit) (hand_side : string)
    (sound : FingerSound.t) (visits : list (float * float)) : bool :=
  match visits with
  | [] => true
  | (relative_y, current_time) :: rest =>
      classified_down self sound relative_y
      && negb (classified_up self sound relative_y)
      && sustained_down self hand_side
           (finger_step self hand_side sound relative_y current_time).1 rest
  end.

(** No visit of the run is classified Up. *)
Fixpoint never_up (self : VirtualDrumkit) (hand_side : string)
    (sound : FingerSound.t) (visits : list (float * float)) : bool :=
  match visits with
  | [] => true
  | (relative_y, current_time) :: rest =>
      negb (classified_up self sound relative_y)
      && never_up self hand_side
           (finger_step self hand_side sound relative_y current_time).1 rest
  end.

(** Some visit of the run is classified Up. *)
Fixpoint some_up (self : VirtualDrumkit) (hand_side : string)
    (sound : FingerSound.t) (visits : list (float * float)) : bool :=
  match visits with
  | [] => false
  | (relative_y, current_time) :: rest =>
      classified_up self sound relative_y
      || some_up self hand_side
           (finger_step self hand_side sound relative_y current_time).1 rest
  end.

(** No visit of the run is a Down edge. *)
Fixpoint no_down_edge (self : VirtualDrumkit) (hand_side : string)
    (sound : FingerSound.t) (visits : list (float * float)) : bool :=
  match visits with
  | [] => true
  | (relative_y, current_time) :: rest =>
      negb (down_edge self sound relative_y)
      && no_down_edge self hand_side
           (finger_step self hand_side sound relative_y current_time).1 rest
  end.

(** ** Scenarios *)

(** The engine when every sound file is found, and when none is. *)
Definition loaded_kit : VirtualDrumkit := init (fun _ => true).
Definition silent_kit : VirtualDrumkit := init (fun _ => false).

(** The channel under a key of a constructed engine (the ten keys of
    [__init__] are present; any other key gives an unnamed channel). *)
Definition channel (self : VirtualDrumkit) (key : string) : FingerSound.t :=
  default (FingerSound.make "" "" 0) (finger_sounds self !! key).

(** A channel after a first visit at relative position 0 (one sample, no
    classification yet). *)
Definition rested (sound : FingerSound.t) : FingerSound.t :=
  FingerSound.set_last_positions sound [0%float].

(** A detected hand with its 21 landmarks: the wrist at height [wrist_y],
    every other landmark at height [tip_y]. *)
Definition hand_at (wrist_y tip_y : float) : HandLandmarks :=
  {| lm_x := 0.5%float; lm_y := wrist_y |}
  :: repeat {| lm_x := 0.5%float; lm_y := tip_y |} 20.

(** A frame with the given hands, in detection order. *)
Definition frame_at (hands : list HandLandmarks) (now : float) : Frame :=
  {| multi_hand_landmarks := hands; frame_time := now |}.

(** Put the engine's hand-level state back to given values. *)
Definition with_hand_state (hc : float) (lt : gmap string float)
    (result : VirtualDrumkit * list string) : VirtualDrumkit * list string :=
  (set_hand_state result.1 hc lt, result.2).

(** What a frame does to the channels: their new state and the log. *)
Definition channel_outcome (result : VirtualDrumkit * list string)
    : gmap string FingerSound.t * list string :=
  (finger_sounds result.1, result.2).

(** The histories of an engine hold at most four samples, and its capacity
    is the 4 of [__init__]. *)
Definition histories_bounded (self : VirtualDrumkit) : Prop :=
  history_size self = 4
  /\ forall (key : string) (sound : FingerSound.t),
       finger_sounds self !! key = Some sound ->
       (length (FingerSound.last_positions sound) <= 4)%nat.

(** Case analysis on the six tests a visit makes. *)
Ltac finger_step_cases self hand_side sound now :=
  unfold finger_step;
  cbn -[push_position detect_downward_motion detect_upward_motion
        can_trigger_sound];
  change (can_trigger_sound self hand_side
            (FingerSound.set_last_positions sound _) now)
    with (can_trigger_sound self hand_side sound now);
  destruct (detect_downward_motion self _) eqn:?;
  destruct (FingerSound.is_moving_down sound) eqn:?;
  destruct (can_trigger_sound self hand_side sound now) eqn:?;
  destruct (bool_decide (is_Some (FingerSound.sound sound))) eqn:?;
  destruct (FingerSound.is_active sound) eqn:?;
  destruct (detect_upward_motion self _) eqn:?;
  cbn.

(** The engine after a list of frames (the engine itself when a frame
    raised). *)
Definition after_frames (self : VirtualDrumkit) (frames : list Frame)
    : VirtualDrumkit :=
  match process_frames self frames with
  | Some (self', _) => self'
  | None => self
  end.

(** The logs of a list of frames. *)
Definition logs_of_frames (self : VirtualDrumkit) (frames : list Frame)
    : list (list string) :=
  match process_frames self frames with
  | Some (_, log) => log
  | None => []
  end.

(** Six frames with two hands each; the finger tips of both hands sink by
    0.01 per frame. *)
Definition sinking_frames : list Frame :=
  [ frame_at [hand_at 0.5%float 0.50%float; hand_at 0.5%float 0.50%float]
             1%float;
    frame_at [hand_at 0.5%float 0.51%float; hand_at 0.5%float 0.51%float]
             2%float;
    frame_at [hand_at 0.5%float 0.52%float; hand_at 0.5%float 0.52%float]
             3%float;
    frame_at [hand_at 0.5%float 0.53%float; hand_at 0.5%float 0.53%float]
             4%float;
    frame_at [hand_at 0.5%float 0.54%float; hand_at 0.5%float 0.54%float]
             5%float;
    frame_at [hand_at 0.5%float 0.55%float; hand_at 0.5%float 0.55%float]
             6%float ].

(** ** The sidebar of [main] *)

(** What the Streamlit widgets of one run of [main] return: the mode picked
    in the select box, and for the sliders and check boxes the value as a
    function of the widget's label and of the default it is given. *)
Record Widgets := {
  selectbox_mode : Mode;
  slider_skill : Z -> Z;
  slider_volume : string -> float -> float;
  checkbox : string -> bool -> bool
}.

(** One iteration of the loop under "Volume Controls". *)
Definition volume_control (self : VirtualDrumkit) (w : Widgets)
    (sound : FingerSound.t) : FingerSound.t :=
  if FingerSound.skill_level sound <=? skill_level self then
    let volume :=
      slider_volume w (FingerSound.name sound +:+ " Volume")
                    (FingerSound.volume sound) in
    if negb (PrimFloat.eqb volume (FingerSound.volume sound)) then
      let sound1 := FingerSound.set_volume sound volume in
      match FingerSound.sound sound1 with
      | Some snd =>
          FingerSound.set_sound sound1
            (Some {| snd_file := snd_file snd; snd_volume := volume |})
      | None => sound1
      end
    else sound
  else sound.

(** One iteration of the loop under "Enable/Disable Sounds". *)
Definition enable_control (self : VirtualDrumkit) (w : Widgets)
    (sound : FingerSound.t) : FingerSound.t :=
  if FingerSound.skill_level sound <=? skill_level self then
    FingerSound.set_is_active sound
      (checkbox w ("Enable " +:+ FingerSound.name sound)
                (FingerSound.is_active sound))
  else sound.

(** The [with st.sidebar:] block of [main] on an engine. Each iteration of
    the two loops over [finger_sounds.items()] writes its own channel only,
    so the loops are maps over the dict. *)
Definition main_sidebar (drumkit : VirtualDrumkit) (w : Widgets)
    : VirtualDrumkit :=
  let drumkit1 := select_mode drumkit (selectbox_mode w) in
  let skill := slider_skill w (skill_level drumkit1) in
  let drumkit2 :=
    if negb (skill =? skill_level drumkit1)
    then set_skill_level drumkit1 skill else drumkit1 in
  let drumkit3 :=
    set_finger_sounds drumkit2
      (volume_control drumkit2 w <$> finger_sounds drumkit2) in
  set_finger_sounds drumkit3
    (enable_control drumkit3 w <$> finger_sounds drumkit3).

(** [main] up to the capture loop: a new engine, then the sidebar. *)
Definition main_setup (file_exists : string -> bool) (w : Widgets)
    : VirtualDrumkit :=
  main_sidebar (init file_exists) w.

(** ** The visits a frame pays to one channel *)

(** The visits of the finger loop of one hand to the channel [key]. *)
Fixpoint finger_visits (hand_side : string) (hand_landmarks : HandLandmarks)
    (wrist_y current_time : float) (key : string)
    (fingers : list (string * nat)) : list (float * float) :=
  match fingers with
  | [] => []
  | (finger_name, tip_idx) :: rest =>
      let later :=
        finger_visits hand_side hand_landmarks wrist_y current_time key rest in
      if bool_decide (finger_key hand_side finger_name = key) then
        match nth_error hand_landmarks tip_idx with
        | Some tip => (PrimFloat.sub (lm_y tip) wrist_y, current_time) :: later
        | None => later
        end
      else later
  end.

(** The visits of the hand loop to the channel [key], from hand number
    [hand_idx] on. *)
Fixpoint hands_visits (fingers : list (string * nat)) (hand_idx : nat)
    (hands : list HandLandmarks) (current_time : float) (key : string)
    : list (float * float) :=
  match hands with
  | [] => []
  | hand_landmarks :: rest =>
      (match nth_error hand_landmarks 0 with
       | Some wrist =>
           finger_visits (if Nat.eqb hand_idx 0 then "LEFT" else "RIGHT")
                         hand_landmarks (lm_y wrist) current_time key fingers
       | None => []
       end
       ++ hands_visits fingers (S hand_idx) rest current_time key)%list
  end.

Definition frame_visits (self : VirtualDrumkit) (frame : Frame)
    (key : string) : list (float * float) :=
  hands_visits (finger_indices self) 0 (multi_hand_landmarks frame)
               (frame_time frame) key.

(** How often a key occurs in a log. *)
Fixpoint plays_of (key : string) (played : list string) : nat :=
  match played with
  | [] => 0%nat
  | k :: rest =>
      ((if bool_decide (k = key) then 1 else 0) + plays_of key rest)%nat
  end.

(** Two channel records agree on everything but the runtime state
    (position history, down-latch, last-fire timestamp). *)
Definition same_configuration (a b : FingerSound.t) : Prop :=
  FingerSound.name a = FingerSound.name b
  /\ FingerSound.sound_file a = FingerSound.sound_file b
  /\ FingerSound.sound a = FingerSound.sound b
  /\ FingerSound.cooldown a = FingerSound.cooldown b
  /\ FingerSound.volume a = FingerSound.volume b
  /\ FingerSound.is_active a = FingerSound.is_active b
  /\ FingerSound.skill_level a = FingerSound.skill_level b.

(** The volume set on the loaded sound is the channel's volume. *)
Definition volume_synced (sound : FingerSound.t) : Prop :=
  forall snd : Sound,
    FingerSound.sound sound = Some snd ->
    snd_volume snd = FingerSound.volume sound.

(** The keys the finger loop of one hand can touch. *)
Definition hand_keys (hand_side : string) (fingers : list (string * nat))
    : list string :=
  map (fun finger => finger_key hand_side finger.1) fingers.

(** Widgets left at their defaults, with a given mode. *)
Definition default_widgets (m : Mode) : Widgets :=
  {| selectbox_mode := m;
     slider_skill := fun default => default;
     slider_volume := fun _ default => default;
     checkbox := fun _ default => default |}.

(** The engine [s] has the settings of [self] and the channels of [self],
    each with its configuration. *)
Definition keeps_configuration (self s : VirtualDrumkit) : Prop :=
  s = set_finger_sounds self (finger_sounds s)
  /\ forall key : string,
       option_Forall2 same_configuration
         (finger_sounds s !! key) (finger_sounds self !! key).

(** ** Sanity checks of the model on concrete data *)

Example init_thresholds :
  down_threshold (init (fun _ => true)) = 0.002%float
  /\ up_threshold (init (fun _ => true)) = 0.001%float
  /\ hand_cooldown (init (fun _ => true)) = 0.2%float.
Proof. repeat split; reflexivity. Qed.

Example avg_motion_single_delta :
  avg_motion [0%float; 0.0015%float] = 0.0015%float.
Proof. reflexivity. Qed.

Example motions_of_four :
  motions [1%float; 3%float; 6%float; 10%float] = [2%float; 3%float; 4%float].
Proof. reflexivity. Qed.

(** ** The firing permission *)

(** C1. [can_trigger_sound] returns false when the channel's skill
    requirement exceeds the engine's skill level, false when
    [current_time - last_trigger_time < cooldown], and true otherwise; and
    its result is a function of those four values and the timestamp alone:
    any other engine, hand side and channel that agree on them (whatever
    their hand-level cooldown state and enabled flag) get the same answer. *)
Theorem can_trigger_sound_decision :
  forall (self : VirtualDrumkit) (hand_side : string)
         (sound : FingerSound.t) (now : float),
    (FingerSound.skill_level sound > skill_level self ->
     can_trigger_sound self hand_side sound now = false)
    /\ (PrimFloat.ltb
          (PrimFloat.sub now (FingerSound.last_trigger_time sound))
          (FingerSound.cooldown sound) = true ->
        can_trigger_sound self hand_side sound now = false)
    /\ (FingerSound.skill_level sound <= skill_level self ->
        PrimFloat.ltb
          (PrimFloat.sub now (FingerSound.last_trigger_time sound))
          (FingerSound.cooldown sound) = false ->
        can_trigger_sound self hand_side sound now = true)
    /\ (forall (self' : VirtualDrumkit) (hand_side' : string)
               (sound' : FingerSound.t),
          skill_level self' = skill_level self ->
          FingerSound.skill_level sound' = FingerSound.skill_level sound ->
          FingerSound.last_trigger_time sound'
            = FingerSound.last_trigger_time sound ->
          FingerSound.cooldown sound' = FingerSound.cooldown sound ->
          can_trigger_sound self' hand_side' sound' now
            = can_trigger_sound self hand_side sound now).
Proof.
  intros self hand_side sound now. unfold can_trigger_sound.
  repeat split.
  - intros Hgt.
    destruct (FingerSound.skill_level sound >? skill_level self) eqn:E;
      [reflexivity|].
    rewrite Z.gtb_ltb, Z.ltb_ge in E. lia.
  - intros Hcool.
    destruct (FingerSound.skill_level sound >? skill_level self);
      [reflexivity|]. now rewrite Hcool.
  - intros Hle Hcool.
    destruct (FingerSound.skill_level sound >? skill_level self) eqn:E.
    + rewrite Z.gtb_ltb, Z.ltb_lt in E. lia.
    + now rewrite Hcool.
  - intros self' hand_side' sound' Hs Hk Hl Hc.
    now rewrite Hs, Hk, Hl, Hc.
Qed.

Lemma can_trigger_sound_decision_witness :
  can_trigger_sound (init (fun _ => true)) "LEFT"
    (FingerSound.make "Tom Low" "TR-808 Kit/Tom Low.wav" 3) 1%float = false
  /\ can_trigger_sound (init (fun _ => true)) "RIGHT"
       (FingerSound.set_last_trigger_time
          (FingerSound.make "Kick" "TR-808 Kit/Kick Basic.wav" 1) 0.9%float)
       1%float = false
  /\ can_trigger_sound (init (fun _ => true)) "RIGHT"
       (FingerSound.make "Kick" "TR-808 Kit/Kick Basic.wav" 1) 1%float = true
  /\ can_trigger_sound
       (set_hand_state (init (fun _ => false)) 5%float ∅) "LEFT"
       (FingerSound.set_is_active
          (FingerSound.make "Kick" "TR-808 Kit/Kick Basic.wav" 1) false)
       1%float
     = can_trigger_sound (init (fun _ => true)) "RIGHT"
         (FingerSound.make "Kick" "TR-808 Kit/Kick Basic.wav" 1) 1%float.
Proof.
  split; [|split; [|split]].
  - destruct (can_trigger_sound_decision (init (fun _ => true)) "LEFT"
                (FingerSound.make "Tom Low" "TR-808 Kit/Tom Low.wav" 3)
                1%float) as (H & _).
    apply H. vm_compute. reflexivity.
  - destruct (can_trigger_sound_decision (init (fun _ => true)) "RIGHT"
                (FingerSound.set_last_trigger_time
                   (FingerSound.make "Kick" "TR-808 Kit/Kick Basic.wav" 1)
                   0.9%float) 1%float) as (_ & H & _).
    apply H. vm_compute. reflexivity.
  - destruct (can_trigger_sound_decision (init (fun _ => true)) "RIGHT"
                (FingerSound.make "Kick" "TR-808 Kit/Kick Basic.wav" 1)
                1%float) as (_ & _ & H & _).
    apply H.
    + vm_compute. discriminate.
    + vm_compute. reflexivity.
  - destruct (can_trigger_sound_decision (init (fun _ => true)) "RIGHT"
                (FingerSound.make "Kick" "TR-808 Kit/Kick Basic.wav" 1)
                1%float) as (_ & _ & _ & H).
    apply H; reflexivity.
Defined.

(** ** Motion classification *)

(** C7. On a position history of fewer than two samples both motion tests
    return false: the classification is Neutral. *)
Theorem short_history_is_neutral :
  forall (self : VirtualDrumkit) (positions : list float),
    (length positions < 2)%nat ->
    detect_downward_motion self positions = false
    /\ detect_upward_motion self positions = false.
Proof.
  intros self positions Hlen.
  unfold detect_downward_motion, detect_upward_motion.
  assert ((Z.of_nat (length positions) <? 2) = true) as ->
    by (apply Z.ltb_lt; lia).
  split; reflexivity.
Qed.

Lemma short_history_is_neutral_witness :
  detect_downward_motion (init (fun _ => true)) [5%float] = false
  /\ detect_upward_motion (init (fun _ => true)) [5%float] = false.
Proof.
  apply (short_history_is_neutral (init (fun _ => true)) [5%float]).
  simpl. lia.
Defined.

(** C8. The downward test reads the threshold of the mode that is active
    when it runs: on a history whose average delta is 0.0015 it returns true
    right after Expert (threshold 0.0008) is selected and false right after
    Training (threshold 0.002) is selected. *)
Theorem mode_switch_changes_classification :
  forall (self : VirtualDrumkit) (positions : list float),
    mode_parameters self = initial_mode_parameters ->
    (2 <= length positions)%nat ->
    avg_motion positions = 0.0015%float ->
    (down_threshold (select_mode self EXPERT) = 0.0008%float
     /\ detect_downward_motion (select_mode self EXPERT) positions = true)
    /\ (down_threshold (select_mode self TRAINING) = 0.002%float
        /\ detect_downward_motion (select_mode self TRAINING) positions
           = false).
Proof.
  intros self positions Htable Hlen Havg.
  unfold detect_downward_motion, select_mode, update_mode_parameters.
  cbn [set_current_mode mode_parameters current_mode].
  rewrite Htable. cbn -[avg_motion Z.ltb Z.of_nat].
  assert ((Z.of_nat (length positions) <? 2) = false) as ->
    by (apply Z.ltb_ge; lia).
  rewrite Havg. repeat split; reflexivity.
Qed.

Lemma mode_switch_changes_classification_witness :
  (down_threshold (select_mode (init (fun _ => true)) EXPERT) = 0.0008%float
   /\ detect_downward_motion (select_mode (init (fun _ => true)) EXPERT)
        [0%float; 0.0015%float] = true)
  /\ (down_threshold (select_mode (init (fun _ => true)) TRAINING)
      = 0.002%float
      /\ detect_downward_motion (select_mode (init (fun _ => true)) TRAINING)
           [0%float; 0.0015%float] = false).
Proof.
  apply (mode_switch_changes_classification (init (fun _ => true))
           [0%float; 0.0015%float]).
  - reflexivity.
  - simpl. lia.
  - reflexivity.
Defined.

(** ** Mode selection *)

(** C6. With the profile table of [__init__], selecting Custom and
    re-applying the mode parameters leaves the down-threshold, the
    up-threshold and the hand cooldown as they were, while selecting any
    other mode sets all three from that mode's entry of the table. *)
Theorem custom_mode_keeps_previous_profile :
  forall (self : VirtualDrumkit),
    mode_parameters self = initial_mode_parameters ->
    (mode_lookup (mode_parameters self) CUSTOM = None
     /\ down_threshold (select_mode self CUSTOM) = down_threshold self
     /\ up_threshold (select_mode self CUSTOM) = up_threshold self
     /\ hand_cooldown (select_mode self CUSTOM) = hand_cooldown self)
    /\ (forall m : Mode, m <> CUSTOM ->
        exists p : ModeParams,
          In (m, p) (mode_parameters self)
          /\ down_threshold (select_mode self m) = p_down_threshold p
          /\ up_threshold (select_mode self m) = p_up_threshold p
          /\ hand_cooldown (select_mode self m) = p_hand_cooldown p).
Proof.
  intros self Htable. split.
  - unfold select_mode, update_mode_parameters.
    cbn [set_current_mode mode_parameters current_mode].
    rewrite Htable. repeat split; reflexivity.
  - intros m Hm. unfold select_mode, update_mode_parameters.
    cbn [set_current_mode mode_parameters current_mode].
    rewrite Htable.
    destruct m; try congruence; cbn; eexists;
      (split; [repeat (first [left; reflexivity | right])
              |repeat split; reflexivity]).
Qed.

Lemma custom_mode_keeps_previous_profile_witness :
  (mode_lookup (mode_parameters (select_mode (init (fun _ => true)) EXPERT))
     CUSTOM = None
   /\ down_threshold
        (select_mode (select_mode (init (fun _ => true)) EXPERT) CUSTOM)
      = 0.0008%float
   /\ up_threshold
        (select_mode (select_mode (init (fun _ => true)) EXPERT) CUSTOM)
      = 0.0005%float
   /\ hand_cooldown
        (select_mode (select_mode (init (fun _ => true)) EXPERT) CUSTOM)
      = 0.05%float)
  /\ (forall m : Mode, m <> CUSTOM ->
      exists p : ModeParams,
        In (m, p)
           (mode_parameters (select_mode (init (fun _ => true)) EXPERT))
        /\ down_threshold
             (select_mode (select_mode (init (fun _ => true)) EXPERT) m)
           = p_down_threshold p
        /\ up_threshold
             (select_mode (select_mode (init (fun _ => true)) EXPERT) m)
           = p_up_threshold p
        /\ hand_cooldown
             (select_mode (select_mode (init (fun _ => true)) EXPERT) m)
           = p_hand_cooldown p).
Proof.
  apply (custom_mode_keeps_previous_profile
           (select_mode (init (fun _ => true)) EXPERT)).
  reflexivity.
Defined.

(** ** What one visit does to a channel *)

Section FingerStep.
Variable self : VirtualDrumkit.
Variable hand_side : string.

(** The attributes a visit never writes. *)
Lemma finger_step_static (sound : FingerSound.t) (y now : float) :
  let sound' := (finger_step self hand_side sound y now).1 in
  FingerSound.name sound' = FingerSound.name sound
  /\ FingerSound.sound_file sound' = FingerSound.sound_file sound
  /\ FingerSound.sound sound' = FingerSound.sound sound
  /\ FingerSound.cooldown sound' = FingerSound.cooldown sound
  /\ FingerSound.volume sound' = FingerSound.volume sound
  /\ FingerSound.is_active sound' = FingerSound.is_active sound
  /\ FingerSound.skill_level sound' = FingerSound.skill_level sound.
Proof.
  finger_step_cases self hand_side sound now; repeat split; congruence.
Qed.

Lemma finger_step_positions (sound : FingerSound.t) (y now : float) :
  FingerSound.last_positions (finger_step self hand_side sound y now).1
  = push_position self (FingerSound.last_positions sound) y.
Proof. finger_step_cases self hand_side sound now; reflexivity. Qed.

(** Whether the visit plays the sound. *)
Lemma finger_step_fired (sound : FingerSound.t) (y now : float) :
  (finger_step self hand_side sound y now).2
  = down_edge self sound y
    && can_trigger_sound self hand_side sound now
    && bool_decide (is_Some (FingerSound.sound sound))
    && FingerSound.is_active sound.
Proof.
  unfold down_edge. finger_step_cases self hand_side sound now; reflexivity.
Qed.

(** The last-fire timestamp is stamped exactly when the sound is played. *)
Lemma finger_step_last_trigger_time (sound : FingerSound.t)
    (y now : float) :
  FingerSound.last_trigger_time (finger_step self hand_side sound y now).1
  = if (finger_step self hand_side sound y now).2 then now
    else FingerSound.last_trigger_time sound.
Proof. finger_step_cases self hand_side sound now; reflexivity. Qed.

(** The down-latch: set on a Down edge, cleared by an upward
    classification that is not a Down edge, kept otherwise. *)
Lemma finger_step_latch (sound : FingerSound.t) (y now : float) :
  FingerSound.is_moving_down (finger_step self hand_side sound y now).1
  = if down_edge self sound y then true
    else if classified_up self sound y then false
    else FingerSound.is_moving_down sound.
Proof.
  unfold down_edge, classified_up.
  finger_step_cases self hand_side sound now; congruence.
Qed.

Lemma finger_step_fired_edge (sound : FingerSound.t) (y now : float) :
  (finger_step self hand_side sound y now).2 = true ->
  down_edge self sound y = true.
Proof.
  rewrite finger_step_fired. intros H.
  do 3 (apply andb_prop in H; destruct H as [H _]). exact H.
Qed.

(** Runs of visits, one visit at a time. *)
Lemma channel_run_cons (sound : FingerSound.t) (y now : float)
    (rest : list (float * float)) :
  channel_run self hand_side sound ((y, now) :: rest)
  = ((channel_run self hand_side
        (finger_step self hand_side sound y now).1 rest).1,
     (finger_step self hand_side sound y now).2
     :: (channel_run self hand_side
           (finger_step self hand_side sound y now).1 rest).2).
Proof.
  cbn [channel_run].
  destruct (finger_step self hand_side sound y now) as [s1 f].
  cbn [fst snd].
  destruct (channel_run self hand_side s1 rest) as [s2 l]. reflexivity.
Qed.

Lemma channel_run_app (sound : FingerSound.t)
    (v1 v2 : list (float * float)) :
  channel_run self hand_side sound (v1 ++ v2)%list
  = ((channel_run self hand_side
        (channel_run self hand_side sound v1).1 v2).1,
     ((channel_run self hand_side sound v1).2
      ++ (channel_run self hand_side
            (channel_run self hand_side sound v1).1 v2).2)%list).
Proof.
  revert sound. induction v1 as [|[y now] v1 IH]; intros sound.
  - cbn. now destruct (channel_run self hand_side sound v2).
  - change (((y, now) :: v1) ++ v2)%list with ((y, now) :: (v1 ++ v2))%list.
    rewrite !channel_run_cons, IH. reflexivity.
Qed.

Lemma firings_app (l1 l2 : list bool) :
  firings (l1 ++ l2)%list = (firings l1 + firings l2)%nat.
Proof. induction l1 as [|b l1 IH]; cbn; [reflexivity|]. rewrite IH. lia. Qed.

(** Without an upward classification a latched channel stays silent and
    an armed one plays at most once. *)
Lemma never_up_firings (visits : list (float * float)) :
  forall sound : FingerSound.t,
    never_up self hand_side sound visits = true ->
    (firings (channel_run self hand_side sound visits).2
     <= if FingerSound.is_moving_down sound then 0 else 1)%nat.
Proof.
  induction visits as [|[y now] rest IH]; intros sound Hup.
  - cbn. destruct (FingerSound.is_moving_down sound); lia.
  - cbn [never_up] in Hup. apply andb_prop in Hup as [Hnow Hrest].
    apply negb_true_iff in Hnow.
    rewrite channel_run_cons. cbn [snd firings].
    specialize (IH _ Hrest).
    rewrite finger_step_latch, Hnow in IH.
    rewrite finger_step_fired.
    unfold down_edge in *.
    destruct (detect_downward_motion self _);
      destruct (FingerSound.is_moving_down sound); cbn in *;
      try lia.
    destruct (can_trigger_sound self hand_side sound now
              && bool_decide (is_Some (FingerSound.sound sound))
              && FingerSound.is_active sound); lia.
Qed.

Lemma sustained_down_never_up (visits : list (float * float)) :
  forall sound : FingerSound.t,
    sustained_down self hand_side sound visits = true ->
    never_up self hand_side sound visits = true.
Proof.
  induction visits as [|[y now] rest IH]; intros sound H; [reflexivity|].
  cbn [sustained_down never_up] in *.
  apply andb_prop in H as [H Hrest]. apply andb_prop in H as [_ Hup].
  rewrite Hup, (IH _ Hrest). reflexivity.
Qed.

(** A run without Down edges plays nothing and keeps the last-fire
    timestamp. *)
Lemma no_down_edge_silent (visits : list (float * float)) :
  forall sound : FingerSound.t,
    no_down_edge self hand_side sound visits = true ->
    firings (channel_run self hand_side sound visits).2 = 0%nat
    /\ FingerSound.last_trigger_time
         (channel_run self hand_side sound visits).1
       = FingerSound.last_trigger_time sound.
Proof.
  induction visits as [|[y now] rest IH]; intros sound H; [split; reflexivity|].
  cbn [no_down_edge] in H. apply andb_prop in H as [Hedge Hrest].
  apply negb_true_iff in Hedge.
  rewrite channel_run_cons. cbn [fst snd firings].
  destruct (IH _ Hrest) as [IH1 IH2]. rewrite IH1, IH2.
  rewrite finger_step_last_trigger_time, finger_step_fired, Hedge.
  split; reflexivity.
Qed.

(** A run keeps the attributes no visit writes. *)
Lemma channel_run_static (visits : list (float * float)) :
  forall sound : FingerSound.t,
    let sound' := (channel_run self hand_side sound visits).1 in
    FingerSound.sound sound' = FingerSound.sound sound
    /\ FingerSound.cooldown sound' = FingerSound.cooldown sound
    /\ FingerSound.is_active sound' = FingerSound.is_active sound
    /\ FingerSound.skill_level sound' = FingerSound.skill_level sound.
Proof.
  induction visits as [|[y now] rest IH]; intros sound;
    [repeat split; reflexivity|].
  cbn zeta. rewrite channel_run_cons. cbn [fst].
  destruct (IH (finger_step self hand_side sound y now).1)
    as (-> & -> & -> & ->).
  destruct (finger_step_static sound y now)
    as (_ & _ & -> & -> & _ & -> & ->).
  repeat split; reflexivity.
Qed.

(** A channel that is latched at the start of a run without Down edges
    and armed at its end has seen an upward classification. *)
Lemma rearm_needs_up (visits : list (float * float)) :
  forall sound : FingerSound.t,
    no_down_edge self hand_side sound visits = true ->
    FingerSound.is_moving_down sound = true ->
    FingerSound.is_moving_down (channel_run self hand_side sound visits).1
      = false ->
    some_up self hand_side sound visits = true.
Proof.
  induction visits as [|[y now] rest IH]; intros sound H Hl Ha.
  - cbn in Ha. congruence.
  - cbn [no_down_edge] in H. apply andb_prop in H as [Hedge Hrest].
    apply negb_true_iff in Hedge.
    rewrite channel_run_cons in Ha. cbn [fst] in Ha.
    cbn [some_up].
    destruct (classified_up self sound y) eqn:Hup; [reflexivity|].
    cbn. apply IH; [exact Hrest| |exact Ha].
    rewrite finger_step_latch, Hedge, Hup. exact Hl.
Qed.
End FingerStep.

Example rested_is_one_visit :
  (finger_step loaded_kit "RIGHT" (channel loaded_kit "RIGHT_INDEX")
               0%float 0.5%float).1
  = rested (channel loaded_kit "RIGHT_INDEX").
Proof. vm_compute. reflexivity. Qed.

(** ** The edge latch *)

(** C2. On a visit where the downward test holds and the channel is not
    latched, the down-latch is set, whatever [can_trigger_sound] answers and
    whether or not the sound is played; and a run of visits that are all
    classified Down, none of them Up, plays the channel at most once. *)
Theorem down_latch_set_regardless_of_firing :
  forall (self : VirtualDrumkit) (hand_side : string)
         (sound : FingerSound.t),
    (forall y now : float,
        classified_down self sound y = true ->
        FingerSound.is_moving_down sound = false ->
        FingerSound.is_moving_down (finger_step self hand_side sound y now).1
        = true)
    /\ (forall visits : list (float * float),
        sustained_down self hand_side sound visits = true ->
        (firings (channel_run self hand_side sound visits).2 <= 1)%nat).
Proof.
  intros self hand_side sound. split.
  - intros y now Hdown Harmed.
    rewrite finger_step_latch. unfold down_edge.
    unfold classified_down in Hdown. now rewrite Hdown, Harmed.
  - intros visits Hsus.
    pose proof (never_up_firings self hand_side visits sound
                  (sustained_down_never_up self hand_side visits sound Hsus))
      as Hle.
    destruct (FingerSound.is_moving_down sound); lia.
Qed.

Lemma down_latch_set_regardless_of_firing_witness :
  (can_trigger_sound loaded_kit "LEFT"
     (rested (channel loaded_kit "LEFT_THUMB")) 1%float = false
   /\ FingerSound.is_moving_down
        (finger_step loaded_kit "LEFT"
           (rested (channel loaded_kit "LEFT_THUMB")) 0.1%float 1%float).1
      = true)
  /\ (firings
        (channel_run loaded_kit "RIGHT"
           (rested (channel loaded_kit "RIGHT_INDEX"))
           [(0.1%float, 1%float); (0.2%float, 2%float);
            (0.3%float, 3%float); (0.4%float, 4%float);
            (0.5%float, 5%float)]).2 <= 1)%nat.
Proof.
  split; [split|].
  - vm_compute. reflexivity.
  - apply (proj1 (down_latch_set_regardless_of_firing loaded_kit "LEFT"
                    (rested (channel loaded_kit "LEFT_THUMB")))).
    + vm_compute. reflexivity.
    + vm_compute. reflexivity.
  - apply (proj2 (down_latch_set_regardless_of_firing loaded_kit "RIGHT"
                    (rested (channel loaded_kit "RIGHT_INDEX")))).
    vm_compute. reflexivity.
Defined.

Example sustained_down_fires_once :
  (channel_run loaded_kit "RIGHT" (rested (channel loaded_kit "RIGHT_INDEX"))
     [(0.1%float, 1%float); (0.2%float, 2%float); (0.3%float, 3%float);
      (0.4%float, 4%float); (0.5%float, 5%float)]).2
  = [true; false; false; false; false].
Proof. vm_compute. reflexivity. Qed.

(** ** Cooldown between Down edges *)

(** The log of a run that starts with a Down-edge visit, goes on through
    visits that are no Down edges and ends with a visit. *)
Lemma firings_first_mid_last (self : VirtualDrumkit) (hand_side : string)
    (sound : FingerSound.t) (y1 t1 : float) (mid : list (float * float))
    (y2 t2 : float) :
  no_down_edge self hand_side (finger_step self hand_side sound y1 t1).1 mid
    = true ->
  firings (channel_run self hand_side sound
             ((y1, t1) :: mid ++ [(y2, t2)])%list).2
  = ((if (finger_step self hand_side sound y1 t1).2 then 1 else 0)
     + (if (finger_step self hand_side
              (channel_run self hand_side
                 (finger_step self hand_side sound y1 t1).1 mid).1
              y2 t2).2 then 1 else 0))%nat.
Proof.
  intros Hmid.
  rewrite channel_run_cons, channel_run_app. cbn [fst snd firings].
  rewrite firings_app.
  destruct (no_down_edge_silent self hand_side mid _ Hmid) as [-> _].
  rewrite (channel_run_cons self hand_side _ y2 t2 []).
  cbn [channel_run fst snd firings]. lia.
Qed.

(** C3, as the code has it. Take two consecutive Down edges of a channel,
    at [t1] and [t2]. The channel was re-armed in between by a visit
    classified Up (a Neutral visit never re-arms). If [t2 - t1] is less than
    the channel's cooldown, the two edges play the sound at most once. If
    [t2 - t1] is not less than the cooldown and the first edge played the
    sound, the second plays it too: two firings. *)
Theorem cooldown_between_down_edges :
  forall (self : VirtualDrumkit) (hand_side : string)
         (sound : FingerSound.t) (y1 t1 : float)
         (mid : list (float * float)) (y2 t2 : float),
    down_edge self sound y1 = true ->
    no_down_edge self hand_side (finger_step self hand_side sound y1 t1).1 mid
      = true ->
    down_edge self
      (channel_run self hand_side
         (finger_step self hand_side sound y1 t1).1 mid).1 y2 = true ->
    some_up self hand_side (finger_step self hand_side sound y1 t1).1 mid
      = true
    /\ (PrimFloat.ltb (PrimFloat.sub t2 t1) (FingerSound.cooldown sound)
        = true ->
        (firings (channel_run self hand_side sound
                    ((y1, t1) :: mid ++ [(y2, t2)])%list).2 <= 1)%nat)
    /\ (PrimFloat.ltb (PrimFloat.sub t2 t1) (FingerSound.cooldown sound)
        = false ->
        (finger_step self hand_side sound y1 t1).2 = true ->
        firings (channel_run self hand_side sound
                   ((y1, t1) :: mid ++ [(y2, t2)])%list).2 = 2%nat).
Proof.
  intros self hand_side sound y1 t1 mid y2 t2 Hedge1 Hmid Hedge2.
  pose proof (firings_first_mid_last self hand_side sound y1 t1 mid y2 t2 Hmid)
    as Hlog.
  destruct (no_down_edge_silent self hand_side mid _ Hmid) as [_ Hlast].
  destruct (channel_run_static self hand_side mid
              (finger_step self hand_side sound y1 t1).1)
    as (Hsnd & Hcool & Hact & Hskill).
  destruct (finger_step_static self hand_side sound y1 t1)
    as (_ & _ & Hsnd1 & Hcool1 & _ & Hact1 & Hskill1).
  cbn zeta in *.
  set (s1 := (finger_step self hand_side sound y1 t1).1) in *.
  set (s2 := (channel_run self hand_side s1 mid).1) in *.
  assert (Hfire2 :
    (finger_step self hand_side sound y1 t1).2 = true ->
    (finger_step self hand_side s2 y2 t2).2
    = negb (PrimFloat.ltb (PrimFloat.sub t2 t1) (FingerSound.cooldown sound))).
  { intros Hf1.
    rewrite finger_step_fired, Hedge2.
    unfold can_trigger_sound.
    rewrite Hsnd, Hcool, Hact, Hskill, Hsnd1, Hcool1, Hact1, Hskill1, Hlast.
    unfold s1. rewrite finger_step_last_trigger_time, Hf1.
    rewrite finger_step_fired in Hf1.
    apply andb_prop in Hf1 as [Hf1 ->]. apply andb_prop in Hf1 as [Hf1 ->].
    apply andb_prop in Hf1 as [_ Hcan].
    unfold can_trigger_sound in Hcan.
    destruct (FingerSound.skill_level sound >? skill_level self);
      [discriminate|].
    cbn. destruct (PrimFloat.ltb (PrimFloat.sub t2 t1) _); reflexivity. }
  split; [|split].
  - apply rearm_needs_up; [exact Hmid| |].
    + unfold s1. rewrite finger_step_latch, Hedge1. reflexivity.
    + unfold down_edge in Hedge2. apply andb_prop in Hedge2 as [_ H].
      now apply negb_true_iff in H.
  - intros Hclose. rewrite Hlog.
    destruct (finger_step self hand_side sound y1 t1).2 eqn:Hf1.
    + rewrite (Hfire2 eq_refl), Hclose. cbn. lia.
    + destruct (finger_step self hand_side s2 y2 t2).2; cbn; lia.
  - intros Hfar Hf1. rewrite Hlog, (Hfire2 Hf1), Hf1, Hfar. reflexivity.
Qed.

Lemma cooldown_between_down_edges_witness :
  some_up loaded_kit "RIGHT"
    (finger_step loaded_kit "RIGHT"
       (rested (channel loaded_kit "RIGHT_INDEX")) 0.1%float 1%float).1
    [((-0.5)%float, 1.05%float)] = true
  /\ (firings (channel_run loaded_kit "RIGHT"
                 (rested (channel loaded_kit "RIGHT_INDEX"))
                 ((0.1%float, 1%float)
                  :: [((-0.5)%float, 1.05%float)] ++ [(0.5%float, 1.1%float)]
                 )%list).2 <= 1)%nat
  /\ firings (channel_run loaded_kit "RIGHT"
                (rested (channel loaded_kit "RIGHT_INDEX"))
                ((0.1%float, 1%float)
                 :: [((-0.5)%float, 1.05%float)] ++ [(0.5%float, 2%float)]
                )%list).2 = 2%nat.
Proof.
  split; [|split].
  - apply (cooldown_between_down_edges loaded_kit "RIGHT"
             (rested (channel loaded_kit "RIGHT_INDEX")) 0.1%float 1%float
             [((-0.5)%float, 1.05%float)] 0.5%float 2%float);
      vm_compute; reflexivity.
  - apply (cooldown_between_down_edges loaded_kit "RIGHT"
             (rested (channel loaded_kit "RIGHT_INDEX")) 0.1%float 1%float
             [((-0.5)%float, 1.05%float)] 0.5%float 1.1%float);
      vm_compute; reflexivity.
  - apply (cooldown_between_down_edges loaded_kit "RIGHT"
             (rested (channel loaded_kit "RIGHT_INDEX")) 0.1%float 1%float
             [((-0.5)%float, 1.05%float)] 0.5%float 2%float);
      vm_compute; reflexivity.
Defined.

(** C3 as stated fails. Two Down edges of one channel a full second apart
    (cooldown 0.15), re-armed by an Up visit in between, do not give two
    firings: none when the channel's sound file was not found, none when
    the channel is disabled, and one when the first edge falls within the
    cooldown of an earlier firing. *)
Lemma separated_down_edges_without_two_firings :
  (FingerSound.cooldown (channel silent_kit "RIGHT_INDEX") = 0.15%float
   /\ down_edge silent_kit (rested (channel silent_kit "RIGHT_INDEX"))
        0.1%float = true
   /\ down_edge silent_kit
        (channel_run silent_kit "RIGHT"
           (rested (channel silent_kit "RIGHT_INDEX"))
           [(0.1%float, 1%float); ((-0.5)%float, 1.5%float)]).1
        0.5%float = true
   /\ PrimFloat.ltb (PrimFloat.sub 2%float 1%float) 0.15%float = false
   /\ (channel_run silent_kit "RIGHT"
         (rested (channel silent_kit "RIGHT_INDEX"))
         [(0.1%float, 1%float); ((-0.5)%float, 1.5%float);
          (0.5%float, 2%float)]).2 = [false; false; false])
  /\ (down_edge loaded_kit
        (FingerSound.set_is_active
           (rested (channel loaded_kit "RIGHT_INDEX")) false)
        0.1%float = true
      /\ down_edge loaded_kit
           (channel_run loaded_kit "RIGHT"
              (FingerSound.set_is_active
                 (rested (channel loaded_kit "RIGHT_INDEX")) false)
              [(0.1%float, 1%float); ((-0.5)%float, 1.5%float)]).1
           0.5%float = true
      /\ (channel_run loaded_kit "RIGHT"
            (FingerSound.set_is_active
               (rested (channel loaded_kit "RIGHT_INDEX")) false)
            [(0.1%float, 1%float); ((-0.5)%float, 1.5%float);
             (0.5%float, 2%float)]).2 = [false; false; false])
  /\ (down_edge loaded_kit
        (FingerSound.set_last_trigger_time
           (rested (channel loaded_kit "RIGHT_INDEX")) 0.9%float)
        0.1%float = true
      /\ down_edge loaded_kit
           (channel_run loaded_kit "RIGHT"
              (FingerSound.set_last_trigger_time
                 (rested (channel loaded_kit "RIGHT_INDEX")) 0.9%float)
              [(0.1%float, 1%float); ((-0.5)%float, 1.5%float)]).1
           0.5%float = true
      /\ (channel_run loaded_kit "RIGHT"
            (FingerSound.set_last_trigger_time
               (rested (channel loaded_kit "RIGHT_INDEX")) 0.9%float)
            [(0.1%float, 1%float); ((-0.5)%float, 1.5%float);
             (0.5%float, 2%float)]).2 = [false; false; true]).
Proof. vm_compute. repeat split; reflexivity. Qed.

(** ** A Down edge that cannot play *)

(** C10. On a Down edge that [can_trigger_sound] allows, a channel whose
    sound is missing or whose enabled flag is off plays nothing, keeps its
    last-fire timestamp and is latched all the same. The blocked attempt at
    [t1] therefore starts no cooldown: once the channel has been enabled
    again (at any point before its next Down edge), that edge at [t2] plays
    the sound as soon as the cooldown counted from the last firing before
    the blocked attempt is over, however close [t2] is to [t1]. *)
Theorem blocked_down_edge_keeps_cooldown :
  forall (self : VirtualDrumkit) (hand_side : string)
         (sound : FingerSound.t) (y1 t1 : float),
    down_edge self sound y1 = true ->
    can_trigger_sound self hand_side sound t1 = true ->
    FingerSound.sound sound = None \/ FingerSound.is_active sound = false ->
    (finger_step self hand_side sound y1 t1).2 = false
    /\ FingerSound.last_trigger_time (finger_step self hand_side sound y1 t1).1
       = FingerSound.last_trigger_time sound
    /\ FingerSound.is_moving_down (finger_step self hand_side sound y1 t1).1
       = true
    /\ (forall (before after : list (float * float)) (y2 t2 : float),
          is_Some (FingerSound.sound sound) ->
          no_down_edge self hand_side
            (finger_step self hand_side sound y1 t1).1 before = true ->
          no_down_edge self hand_side
            (FingerSound.set_is_active
               (channel_run self hand_side
                  (finger_step self hand_side sound y1 t1).1 before).1 true)
            after = true ->
          down_edge self
            (channel_run self hand_side
               (FingerSound.set_is_active
                  (channel_run self hand_side
                     (finger_step self hand_side sound y1 t1).1 before).1
                  true) after).1 y2 = true ->
          PrimFloat.ltb
            (PrimFloat.sub t2 (FingerSound.last_trigger_time sound))
            (FingerSound.cooldown sound) = false ->
          (finger_step self hand_side
             (channel_run self hand_side
                (FingerSound.set_is_active
                   (channel_run self hand_side
                      (finger_step self hand_side sound y1 t1).1 before).1
                   true) after).1 y2 t2).2 = true).
Proof.
  intros self hand_side sound y1 t1 Hedge Hcan Hblocked.
  assert (Hsilent : (finger_step self hand_side sound y1 t1).2 = false).
  { rewrite finger_step_fired, Hedge, Hcan.
    destruct Hblocked as [-> | ->]; cbn;
      [reflexivity | apply andb_false_r]. }
  split; [exact Hsilent|]. split; [|split].
  - now rewrite finger_step_last_trigger_time, Hsilent.
  - now rewrite finger_step_latch, Hedge.
  - intros before after y2 t2 Hloaded Hbefore Hafter Hedge2 Hcooled.
    set (s1 := (finger_step self hand_side sound y1 t1).1) in *.
    set (s2 := (channel_run self hand_side s1 before).1) in *.
    set (s3 := FingerSound.set_is_active s2 true) in *.
    set (s4 := (channel_run self hand_side s3 after).1) in *.
    destruct (finger_step_static self hand_side sound y1 t1)
      as (_ & _ & Hsnd1 & Hcool1 & _ & _ & Hskill1).
    destruct (channel_run_static self hand_side before s1)
      as (Hsnd2 & Hcool2 & _ & Hskill2).
    destruct (channel_run_static self hand_side after s3)
      as (Hsnd4 & Hcool4 & Hact4 & Hskill4).
    destruct (no_down_edge_silent self hand_side before s1 Hbefore)
      as [_ Hlast2].
    destruct (no_down_edge_silent self hand_side after s3 Hafter)
      as [_ Hlast4].
    cbn zeta in *. fold s1 in Hsnd1, Hcool1, Hskill1.
    fold s2 in Hsnd2, Hcool2, Hskill2, Hlast2.
    fold s4 in Hsnd4, Hcool4, Hact4, Hskill4, Hlast4.
    assert (Hlast1 : FingerSound.last_trigger_time s1
                     = FingerSound.last_trigger_time sound).
    { unfold s1. now rewrite finger_step_last_trigger_time, Hsilent. }
    rewrite finger_step_fired, Hedge2. unfold can_trigger_sound.
    rewrite Hsnd4, Hcool4, Hact4, Hskill4, Hlast4.
    change (FingerSound.sound s3) with (FingerSound.sound s2).
    change (FingerSound.cooldown s3) with (FingerSound.cooldown s2).
    change (FingerSound.skill_level s3) with (FingerSound.skill_level s2).
    change (FingerSound.last_trigger_time s3)
      with (FingerSound.last_trigger_time s2).
    change (FingerSound.is_active s3) with true.
    rewrite Hsnd2, Hcool2, Hskill2, Hlast2, Hsnd1, Hcool1, Hskill1, Hlast1.
    rewrite Hcooled.
    unfold can_trigger_sound in Hcan.
    destruct (FingerSound.skill_level sound >? skill_level self);
      [discriminate|].
    rewrite (bool_decide_eq_true_2 _ Hloaded). reflexivity.
Qed.

Lemma blocked_down_edge_keeps_cooldown_witness :
  (finger_step loaded_kit "RIGHT"
     (FingerSound.set_is_active (rested (channel loaded_kit "RIGHT_INDEX"))
        false) 0.1%float 1%float).2 = false
  /\ FingerSound.last_trigger_time
       (finger_step loaded_kit "RIGHT"
          (FingerSound.set_is_active
             (rested (channel loaded_kit "RIGHT_INDEX")) false)
          0.1%float 1%float).1
     = FingerSound.last_trigger_time
         (FingerSound.set_is_active
            (rested (channel loaded_kit "RIGHT_INDEX")) false)
  /\ FingerSound.is_moving_down
       (finger_step loaded_kit "RIGHT"
          (FingerSound.set_is_active
             (rested (channel loaded_kit "RIGHT_INDEX")) false)
          0.1%float 1%float).1 = true
  /\ PrimFloat.ltb (PrimFloat.sub 1.05%float 1%float) 0.15%float = true
  /\ (finger_step loaded_kit "RIGHT"
        (channel_run loaded_kit "RIGHT"
           (FingerSound.set_is_active
              (channel_run loaded_kit "RIGHT"
                 (finger_step loaded_kit "RIGHT"
                    (FingerSound.set_is_active
                       (rested (channel loaded_kit "RIGHT_INDEX")) false)
                    0.1%float 1%float).1
                 [((-0.5)%float, 1.02%float)]).1 true) []).1
        0.5%float 1.05%float).2 = true.
Proof.
  destruct (blocked_down_edge_keeps_cooldown loaded_kit "RIGHT"
              (FingerSound.set_is_active
                 (rested (channel loaded_kit "RIGHT_INDEX")) false)
              0.1%float 1%float) as (H1 & H2 & H3 & H4).
  - vm_compute. reflexivity.
  - vm_compute. reflexivity.
  - right. reflexivity.
  - split; [exact H1|]. split; [exact H2|]. split; [exact H3|].
    split; [vm_compute; reflexivity|].
    apply (H4 [((-0.5)%float, 1.02%float)] [] 0.5%float 1.05%float).
    + vm_compute. eexists. reflexivity.
    + vm_compute. reflexivity.
    + vm_compute. reflexivity.
    + vm_compute. reflexivity.
    + vm_compute. reflexivity.
Defined.

(** ** Frame processing on the whole engine *)

(** A property of the engine and the log that every finger iteration
    preserves is preserved by a frame. *)
Section FrameInduction.
Variable Inv : VirtualDrumkit -> list string -> Prop.
Hypothesis Inv_finger :
  forall self hand_side hand_landmarks wrist_y current_time played finger
         self' played',
    Inv self played ->
    process_finger self hand_side hand_landmarks wrist_y current_time
                   played finger = Some (self', played') ->
    Inv self' played'.

Lemma process_fingers_inv (fingers : list (string * nat)) :
  forall self hand_side hand_landmarks wrist_y current_time played
         self' played',
    Inv self played ->
    process_fingers self hand_side hand_landmarks wrist_y current_time
                    played fingers = Some (self', played') ->
    Inv self' played'.
Proof.
  induction fingers as [|finger rest IH];
    intros self hand_side hl wrist_y now played self' played' HI Hrun.
  - cbn in Hrun. now inversion Hrun; subst.
  - cbn [process_fingers] in Hrun.
    destruct (process_finger self hand_side hl wrist_y now played finger)
      as [[s1 p1]|] eqn:Hstep; [|discriminate].
    eapply IH; [|exact Hrun]. eapply Inv_finger; eassumption.
Qed.

Lemma process_hands_inv (hands : list HandLandmarks) :
  forall self hand_idx current_time played self' played',
    Inv self played ->
    process_hands self hand_idx hands current_time played
      = Some (self', played') ->
    Inv self' played'.
Proof.
  induction hands as [|hl rest IH];
    intros self hand_idx now played self' played' HI Hrun.
  - cbn in Hrun. now inversion Hrun; subst.
  - cbn [process_hands] in Hrun.
    destruct (process_hand self hand_idx hl now played)
      as [[s1 p1]|] eqn:Hhand; [|discriminate].
    eapply IH; [|exact Hrun].
    unfold process_hand in Hhand.
    destruct (nth_error hl 0) as [wrist|]; [|discriminate].
    eapply process_fingers_inv; eassumption.
Qed.

Lemma process_frame_inv (self : VirtualDrumkit) (frame : Frame)
    (self' : VirtualDrumkit) (played' : list string) :
  Inv self [] ->
  process_frame self frame = Some (self', played') ->
  Inv self' played'.
Proof. unfold process_frame. apply process_hands_inv. Qed.
End FrameInduction.

(** What a finger iteration can do: nothing, or replace the channel of its
    key, which passed the skill check, by the result of [finger_step]. *)
Lemma process_finger_cases (self : VirtualDrumkit) (hand_side : string)
    (hand_landmarks : HandLandmarks) (wrist_y current_time : float)
    (played : list string) (finger : string * nat)
    (self' : VirtualDrumkit) (played' : list string) :
  process_finger self hand_side hand_landmarks wrist_y current_time played
                 finger = Some (self', played') ->
  (self' = self /\ played' = played)
  \/ exists (sound : FingerSound.t) (tip : Landmark),
       finger_sounds self !! finger_key hand_side finger.1 = Some sound
       /\ FingerSound.skill_level sound <= skill_level self
       /\ nth_error hand_landmarks finger.2 = Some tip
       /\ self' = set_finger_sounds self
                    (<[finger_key hand_side finger.1 :=
                         (finger_step self hand_side sound
                            (PrimFloat.sub (lm_y tip) wrist_y)
                            current_time).1]> (finger_sounds self))
       /\ played' = if (finger_step self hand_side sound
                          (PrimFloat.sub (lm_y tip) wrist_y) current_time).2
                    then (played ++ [finger_key hand_side finger.1])%list
                    else played.
Proof.
  destruct finger as [finger_name tip_idx]. unfold process_finger. cbn [fst snd].
  destruct (finger_sounds self !! finger_key hand_side finger_name)
    as [sound|] eqn:Hkey.
  - destruct (FingerSound.skill_level sound >? skill_level self) eqn:Hskill.
    + intros H; inversion H; subst. left. split; reflexivity.
    + destruct (nth_error hand_landmarks tip_idx) as [tip|] eqn:Htip;
        [|discriminate].
      destruct (finger_step self hand_side sound
                  (PrimFloat.sub (lm_y tip) wrist_y) current_time)
        as [sound' fired] eqn:Hstep.
      intros H; inversion H; subst. right. exists sound, tip.
      rewrite Z.gtb_ltb, Z.ltb_ge in Hskill. rewrite Hstep.
      split; [reflexivity|]. split; [exact Hskill|].
      repeat split; reflexivity.
  - intros H; inversion H; subst. left. split; reflexivity.
Qed.

(** C4. A channel whose skill requirement exceeds the engine's skill level
    is not played by a frame and comes out of it unchanged: its position
    history, its down-latch, its last-fire timestamp and every other
    attribute, whatever the landmarks are. *)
Theorem locked_channel_is_untouched :
  forall (self : VirtualDrumkit) (frame : Frame) (key : string)
         (sound : FingerSound.t) (self' : VirtualDrumkit)
         (played : list string),
    finger_sounds self !! key = Some sound ->
    FingerSound.skill_level sound > skill_level self ->
    process_frame self frame = Some (self', played) ->
    (key ∉ played) /\ finger_sounds self' !! key = Some sound.
Proof.
  intros self frame key sound self' played Hkey Hlocked Hrun.
  pose (Inv := fun (s : VirtualDrumkit) (p : list string) =>
                 skill_level s = skill_level self
                 /\ finger_sounds s !! key = Some sound /\ (key ∉ p)).
  assert (HInv : Inv self' played).
  { eapply (process_frame_inv Inv); [|repeat split; [exact Hkey|set_solver]
                                      |exact Hrun].
    intros s hs hl wy now p f s' p' (Hs & Hk & Hp) Hstep.
    apply process_finger_cases in Hstep
      as [[-> ->]|(snd0 & tip & Hk0 & Hok & _ & -> & ->)].
    - repeat split; assumption.
    - assert (finger_key hs f.1 <> key) as Hne.
      { intros Heq. rewrite Heq, Hk in Hk0. inversion Hk0; subst. lia. }
      repeat split; cbn.
      + exact Hs.
      + rewrite lookup_insert_ne by exact Hne. exact Hk.
      + destruct (finger_step s hs snd0 _ now).2; [|exact Hp].
        rewrite elem_of_app, list_elem_of_singleton. intros [?|?]; congruence. }
  destruct HInv as (_ & Hk' & Hp'). split; assumption.
Qed.

Lemma locked_channel_is_untouched_witness :
  match process_frame loaded_kit
          (frame_at [hand_at 0.5%float 0.9%float] 1%float) with
  | Some (self', played) =>
      ("LEFT_THUMB" ∉ played)
      /\ finger_sounds self' !! "LEFT_THUMB"
         = Some (channel loaded_kit "LEFT_THUMB")
  | None => False
  end.
Proof.
  destruct (process_frame loaded_kit
              (frame_at [hand_at 0.5%float 0.9%float] 1%float))
    as [[self' played]|] eqn:Hrun.
  - apply (locked_channel_is_untouched loaded_kit
             (frame_at [hand_at 0.5%float 0.9%float] 1%float)
             "LEFT_THUMB" (channel loaded_kit "LEFT_THUMB") self' played).
    + vm_compute. reflexivity.
    + vm_compute. reflexivity.
    + exact Hrun.
  - vm_compute in Hrun. discriminate Hrun.
Defined.

(** ** The hand-level cooldown state *)

Lemma process_finger_hand_state (self : VirtualDrumkit) (hc : float)
    (lt : gmap string float) (hand_side : string)
    (hand_landmarks : HandLandmarks) (wrist_y current_time : float)
    (played : list string) (finger : string * nat) :
  process_finger (set_hand_state self hc lt) hand_side hand_landmarks wrist_y
                 current_time played finger
  = with_hand_state hc lt
      <$> process_finger self hand_side hand_landmarks wrist_y current_time
                         played finger.
Proof.
  destruct finger as [finger_name tip_idx]. unfold process_finger.
  cbn [set_hand_state finger_sounds skill_level].
  destruct (finger_sounds self !! finger_key hand_side finger_name)
    as [sound|]; [|reflexivity].
  destruct (FingerSound.skill_level sound >? skill_level self);
    [reflexivity|].
  destruct (nth_error hand_landmarks tip_idx) as [tip|]; [|reflexivity].
  change (finger_step (set_hand_state self hc lt))
    with (finger_step self).
  destruct (finger_step self hand_side sound _ current_time)
    as [sound' fired].
  reflexivity.
Qed.

Lemma process_fingers_hand_state (fingers : list (string * nat)) :
  forall (self : VirtualDrumkit) (hc : float) (lt : gmap string float)
         (hand_side : string) (hand_landmarks : HandLandmarks)
         (wrist_y current_time : float) (played : list string),
    process_fingers (set_hand_state self hc lt) hand_side hand_landmarks
                    wrist_y current_time played fingers
    = with_hand_state hc lt
        <$> process_fingers self hand_side hand_landmarks wrist_y
                            current_time played fingers.
Proof.
  induction fingers as [|finger rest IH];
    intros self hc lt hand_side hl wrist_y now played; [reflexivity|].
  cbn [process_fingers]. rewrite process_finger_hand_state.
  destruct (process_finger self hand_side hl wrist_y now played finger)
    as [[s1 p1]|]; [|reflexivity].
  cbn. apply IH.
Qed.

Lemma process_hands_hand_state (hands : list HandLandmarks) :
  forall (self : VirtualDrumkit) (hc : float) (lt : gmap string float)
         (hand_idx : nat) (current_time : float) (played : list string),
    process_hands (set_hand_state self hc lt) hand_idx hands current_time
                  played
    = with_hand_state hc lt
        <$> process_hands self hand_idx hands current_time played.
Proof.
  induction hands as [|hl rest IH];
    intros self hc lt hand_idx now played; [reflexivity|].
  cbn [process_hands]. unfold process_hand.
  destruct (nth_error hl 0) as [wrist|]; [|reflexivity].
  cbn [set_hand_state finger_indices].
  rewrite process_fingers_hand_state.
  destruct (process_fingers self _ hl (lm_y wrist) now played
              (finger_indices self)) as [[s1 p1]|]; [|reflexivity].
  cbn. apply IH.
Qed.

(** A frame writes nothing but [finger_sounds]. *)
Lemma process_frame_writes_finger_sounds (self : VirtualDrumkit)
    (frame : Frame) (self' : VirtualDrumkit) (played : list string) :
  process_frame self frame = Some (self', played) ->
  self' = set_finger_sounds self (finger_sounds self').
Proof.
  apply (process_frame_inv
           (fun s _ => s = set_finger_sounds self (finger_sounds s))).
  - intros s hs hl wy now p f s' p' Hs Hstep.
    apply process_finger_cases in Hstep
      as [[-> ->]|(snd0 & tip & _ & _ & _ & -> & _)]; [exact Hs|].
    rewrite Hs at 1. reflexivity.
  - now destruct self.
Qed.

(** C5. The hand-level cooldown state is inert. Two engines that differ
    only in [hand_cooldown] and [last_hand_trigger_time] process a frame
    alike: both raise, or both return the same log of played channels and
    the same channel states. And a frame leaves [last_hand_trigger_time]
    (and [hand_cooldown]) as it found them. *)
Theorem hand_cooldown_state_is_inert :
  forall (self : VirtualDrumkit) (hc : float) (lt : gmap string float)
         (frame : Frame),
    channel_outcome <$> process_frame (set_hand_state self hc lt) frame
    = channel_outcome <$> process_frame self frame
    /\ match process_frame self frame with
       | Some (self', _) =>
           last_hand_trigger_time self' = last_hand_trigger_time self
           /\ hand_cooldown self' = hand_cooldown self
       | None => True
       end.
Proof.
  intros self hc lt frame. split.
  - unfold process_frame. rewrite process_hands_hand_state.
    destruct (process_hands self 0 (multi_hand_landmarks frame)
                (frame_time frame) []) as [[s p]|]; reflexivity.
  - destruct (process_frame self frame) as [[self' played]|] eqn:Hrun;
      [|exact I].
    rewrite (process_frame_writes_finger_sounds _ _ _ _ Hrun).
    split; reflexivity.
Qed.

Lemma hand_cooldown_state_is_inert_witness :
  channel_outcome
    <$> process_frame
          (set_hand_state
             (set_finger_sounds loaded_kit
                (<["LEFT_INDEX" := rested (channel loaded_kit "LEFT_INDEX")]>
                   (finger_sounds loaded_kit)))
             100%float (list_to_map [("LEFT", 0.99%float)]))
          (frame_at [hand_at 0.5%float 0.9%float] 1%float)
  = channel_outcome
      <$> process_frame
            (set_finger_sounds loaded_kit
               (<["LEFT_INDEX" := rested (channel loaded_kit "LEFT_INDEX")]>
                  (finger_sounds loaded_kit)))
            (frame_at [hand_at 0.5%float 0.9%float] 1%float).
Proof.
  apply (proj1 (hand_cooldown_state_is_inert
                  (set_finger_sounds loaded_kit
                     (<["LEFT_INDEX" :=
                          rested (channel loaded_kit "LEFT_INDEX")]>
                        (finger_sounds loaded_kit)))
                  100%float (list_to_map [("LEFT", 0.99%float)])
                  (frame_at [hand_at 0.5%float 0.9%float] 1%float))).
Defined.

(** ** The position history *)

Lemma push_position_evicts (self : VirtualDrumkit) (positions : list float)
    (y : float) :
  history_size self = 4 ->
  (length positions <= 4)%nat ->
  push_position self positions y
  = if (length positions <? 4)%nat then (positions ++ [y])%list
    else (tail positions ++ [y])%list.
Proof.
  intros Hsize Hlen. unfold push_position. rewrite Hsize, length_app.
  cbn [length].
  destruct (length positions <? 4)%nat eqn:Hlt.
  - apply Nat.ltb_lt in Hlt.
    assert ((Z.of_nat (length positions + 1) >? 4) = false) as ->
      by (rewrite Z.gtb_ltb; apply Z.ltb_ge; lia).
    reflexivity.
  - apply Nat.ltb_ge in Hlt.
    assert ((Z.of_nat (length positions + 1) >? 4) = true) as ->
      by (rewrite Z.gtb_ltb; apply Z.ltb_lt; lia).
    destruct positions as [|p ps]; [cbn in Hlt; lia|reflexivity].
Qed.

Lemma push_position_length (self : VirtualDrumkit) (positions : list float)
    (y : float) :
  history_size self = 4 ->
  (length positions <= 4)%nat ->
  (length (push_position self positions y) <= 4)%nat.
Proof.
  intros Hsize Hlen. rewrite push_position_evicts by assumption.
  destruct (length positions <? 4)%nat eqn:Hlt.
  - apply Nat.ltb_lt in Hlt. rewrite length_app. cbn. lia.
  - rewrite length_app. destruct positions; cbn in *; lia.
Qed.

Lemma load_sound_positions (file_exists : string -> bool)
    (sound : FingerSound.t) :
  FingerSound.last_positions (load_sound file_exists sound)
  = FingerSound.last_positions sound.
Proof.
  unfold load_sound.
  destruct (file_exists _); [|reflexivity].
  destruct (str_contains "Kick" _); [reflexivity|].
  destruct (str_contains "Cymbal" _); reflexivity.
Qed.

Lemma init_histories_bounded (file_exists : string -> bool) :
  histories_bounded (init file_exists).
Proof.
  split; [reflexivity|].
  intros key sound. unfold init. cbn [finger_sounds set_finger_sounds].
  change (finger_sounds (update_mode_parameters _))
    with initial_finger_sounds.
  rewrite lookup_fmap.
  destruct (initial_finger_sounds !! key) as [sound0|] eqn:Hkey;
    [|discriminate].
  cbn. intros H; inversion H; subst. rewrite load_sound_positions.
  apply elem_of_list_to_map_2 in Hkey.
  repeat (apply elem_of_cons in Hkey as [Hkey|Hkey];
          [inversion Hkey; subst; cbn; lia|]).
  inversion Hkey.
Qed.

Lemma process_frame_histories_bounded (self : VirtualDrumkit)
    (frame : Frame) (self' : VirtualDrumkit) (played : list string) :
  histories_bounded self ->
  process_frame self frame = Some (self', played) ->
  histories_bounded self'.
Proof.
  intros Hb. apply (process_frame_inv (fun s _ => histories_bounded s));
    [|exact Hb].
  clear. intros s hs hl wy now p f s' p' [Hsize Hs] Hstep.
  apply process_finger_cases in Hstep
    as [[-> ->]|(snd0 & tip & Hk0 & _ & _ & -> & _)]; [split; assumption|].
  split; [exact Hsize|]. intros key sound. cbn [finger_sounds set_finger_sounds].
  destruct (decide (finger_key hs f.1 = key)) as [<-|Hne].
  - rewrite lookup_insert_eq. intros H; inversion H; subst.
    rewrite finger_step_positions.
    apply push_position_length; [exact Hsize|]. eapply Hs, Hk0.
  - rewrite lookup_insert_ne by exact Hne. apply Hs.
Qed.

Lemma process_frames_histories_bounded (frames : list Frame) :
  forall (self self' : VirtualDrumkit) (log : list (list string)),
    histories_bounded self ->
    process_frames self frames = Some (self', log) ->
    histories_bounded self'.
Proof.
  induction frames as [|frame rest IH]; intros self self' log Hb Hrun.
  - cbn in Hrun. now inversion Hrun; subst.
  - cbn [process_frames] in Hrun.
    destruct (process_frame self frame) as [[s1 p1]|] eqn:Hframe;
      [|discriminate].
    destruct (process_frames s1 rest) as [[s2 l2]|] eqn:Hrest;
      [|discriminate].
    inversion Hrun; subst.
    eapply IH; [|exact Hrest].
    eapply process_frame_histories_bounded; eassumption.
Qed.

(** C9. After any sequence of frames processed by a freshly constructed
    engine, every channel's position history holds at most 4 samples; and a
    visit appends the new sample at the end, dropping the oldest (first)
    sample when the history already held 4, the rest keeping their order. *)
Theorem history_keeps_last_four :
  (forall (file_exists : string -> bool) (frames : list Frame)
          (self' : VirtualDrumkit) (log : list (list string))
          (key : string) (sound : FingerSound.t),
      process_frames (init file_exists) frames = Some (self', log) ->
      finger_sounds self' !! key = Some sound ->
      (length (FingerSound.last_positions sound) <= 4)%nat)
  /\ (forall (self : VirtualDrumkit) (hand_side : string)
             (sound : FingerSound.t) (y now : float),
        history_size self = 4 ->
        (length (FingerSound.last_positions sound) <= 4)%nat ->
        FingerSound.last_positions (finger_step self hand_side sound y now).1
        = if (length (FingerSound.last_positions sound) <? 4)%nat
          then (FingerSound.last_positions sound ++ [y])%list
          else (tail (FingerSound.last_positions sound) ++ [y])%list).
Proof.
  split.
  - intros file_exists frames self' log key sound Hrun Hkey.
    destruct (process_frames_histories_bounded frames (init file_exists)
                self' log (init_histories_bounded file_exists) Hrun)
      as [_ Hb].
    eapply Hb, Hkey.
  - intros self hand_side sound y now Hsize Hlen.
    rewrite finger_step_positions. now apply push_position_evicts.
Qed.

Lemma history_keeps_last_four_witness :
  (length (FingerSound.last_positions
             (channel (after_frames loaded_kit sinking_frames)
                      "RIGHT_INDEX")) <= 4)%nat
  /\ FingerSound.last_positions
       (finger_step loaded_kit "RIGHT"
          (FingerSound.set_last_positions (channel loaded_kit "RIGHT_INDEX")
             [1%float; 2%float; 3%float; 4%float])
          5%float 1%float).1
     = [2%float; 3%float; 4%float; 5%float].
Proof.
  split.
  - apply (proj1 history_keeps_last_four (fun _ => true) sinking_frames
             (after_frames loaded_kit sinking_frames)
             (logs_of_frames loaded_kit sinking_frames) "RIGHT_INDEX").
    + vm_compute. reflexivity.
    + vm_compute. reflexivity.
  - apply (proj2 history_keeps_last_four loaded_kit "RIGHT"
             (FingerSound.set_last_positions
                (channel loaded_kit "RIGHT_INDEX")
                [1%float; 2%float; 3%float; 4%float]) 5%float 1%float).
    + reflexivity.
    + cbn. lia.
Defined.

Example sinking_frames_play_right_hand_once :
  logs_of_frames loaded_kit sinking_frames
  = [[]; ["RIGHT_THUMB"; "RIGHT_INDEX"; "RIGHT_MIDDLE"]; []; []; []; []]
  /\ length (FingerSound.last_positions
               (channel (after_frames loaded_kit sinking_frames)
                        "RIGHT_INDEX")) = 4%nat
  /\ FingerSound.last_positions
       (channel (after_frames loaded_kit sinking_frames) "LEFT_INDEX") = [].
Proof. vm_compute. repeat split; reflexivity. Qed.

(** * Further properties of the engine *)

(** ** The two motion tests never both hold *)

(** No float lies above a non-negative float and below the negation of a
    non-negative float. *)
Lemma no_float_between (d u x : float) :
  PrimFloat.leb 0%float d = true ->
  PrimFloat.leb 0%float u = true ->
  PrimFloat.ltb d x = true ->
  PrimFloat.ltb x (PrimFloat.opp u) = true ->
  False.
Proof.
  rewrite !FloatAxioms.leb_spec, !FloatAxioms.ltb_spec, FloatAxioms.opp_spec.
  change (Prim2SF 0%float) with (S754_zero false).
  unfold SFleb, SFltb.
  destruct (Prim2SF d) as [sd| sd | |sd md ed];
    destruct (Prim2SF u) as [su| su | |su mu eu];
    destruct (Prim2SF x) as [sx| sx | |sx mx ex]; cbn;
    repeat match goal with s : bool |- _ => destruct s end; cbn;
    try discriminate; intros; discriminate.
Qed.

(** X1. With non-negative thresholds no position history passes both the
    downward and the upward test. *)
Theorem down_and_up_exclude_each_other :
  forall (self : VirtualDrumkit) (positions : list float),
    PrimFloat.leb 0%float (down_threshold self) = true ->
    PrimFloat.leb 0%float (up_threshold self) = true ->
    detect_downward_motion self positions
    && detect_upward_motion self positions = false.
Proof.
  intros self positions Hd Hu.
  unfold detect_downward_motion, detect_upward_motion.
  destruct (Z.of_nat (length positions) <? 2); [reflexivity|].
  destruct (PrimFloat.ltb (down_threshold self) _) eqn:Hdown;
    [|reflexivity].
  destruct (PrimFloat.ltb _ (PrimFloat.opp (up_threshold self))) eqn:Hup;
    [|reflexivity].
  destruct (no_float_between _ _ _ Hd Hu Hdown Hup).
Qed.

Lemma down_and_up_exclude_each_other_witness :
  detect_downward_motion loaded_kit [0%float; 0.1%float]
  && detect_upward_motion loaded_kit [0%float; 0.1%float] = false.
Proof.
  apply (down_and_up_exclude_each_other loaded_kit [0%float; 0.1%float]);
    vm_compute; reflexivity.
Defined.

(** Mode selections from the table of [__init__] keep the thresholds
    non-negative. *)
Lemma select_mode_thresholds (self : VirtualDrumkit) (m : Mode) :
  mode_parameters self = initial_mode_parameters ->
  PrimFloat.leb 0%float (down_threshold self) = true ->
  PrimFloat.leb 0%float (up_threshold self) = true ->
  mode_parameters (select_mode self m) = initial_mode_parameters
  /\ PrimFloat.leb 0%float (down_threshold (select_mode self m)) = true
  /\ PrimFloat.leb 0%float (up_threshold (select_mode self m)) = true.
Proof.
  intros Htable Hd Hu. unfold select_mode, update_mode_parameters.
  cbn [set_current_mode mode_parameters current_mode]. rewrite Htable.
  destruct m; cbn; repeat split; assumption || reflexivity.
Qed.

(** X2. In an engine as constructed, after any sequence of mode selections
    (Custom included), no position history is classified both Down and Up:
    each visit is Down, Up or Neutral. *)
Theorem constructed_engine_classifies_one_way :
  forall (file_exists : string -> bool) (modes : list Mode)
         (positions : list float),
    detect_downward_motion (fold_left select_mode modes (init file_exists))
                           positions
    && detect_upward_motion (fold_left select_mode modes (init file_exists))
                            positions = false.
Proof.
  intros file_exists modes positions.
  assert (H : forall self : VirtualDrumkit,
             mode_parameters self = initial_mode_parameters ->
             PrimFloat.leb 0%float (down_threshold self) = true ->
             PrimFloat.leb 0%float (up_threshold self) = true ->
             PrimFloat.leb 0%float
               (down_threshold (fold_left select_mode modes self)) = true
             /\ PrimFloat.leb 0%float
                  (up_threshold (fold_left select_mode modes self)) = true).
  { induction modes as [|m rest IH]; intros self Ht Hd Hu; [now split|].
    cbn [fold_left].
    destruct (select_mode_thresholds self m Ht Hd Hu) as (Ht' & Hd' & Hu').
    now apply IH. }
  destruct (H (init file_exists)) as [Hd Hu]; try reflexivity.
  unfold detect_downward_motion, detect_upward_motion.
  destruct (Z.of_nat (length positions) <? 2); [reflexivity|].
  destruct (PrimFloat.ltb (down_threshold _) _) eqn:Hdown; [|reflexivity].
  destruct (PrimFloat.ltb _ (PrimFloat.opp (up_threshold _))) eqn:Hup;
    [|reflexivity].
  destruct (no_float_between _ _ _ Hd Hu Hdown Hup).
Qed.

(** ** Mode selection composes *)

(** X3. Selecting a mode that has a profile in the engine's table erases
    what the previous selection did: the engine is the one obtained by
    selecting that mode directly. *)
Theorem select_mode_last_profile_wins :
  forall (self : VirtualDrumkit) (m1 m2 : Mode) (p : ModeParams),
    mode_lookup (mode_parameters self) m2 = Some p ->
    select_mode (select_mode self m1) m2 = select_mode self m2.
Proof.
  intros self m1 m2 p Hp. unfold select_mode, update_mode_parameters.
  cbn [set_current_mode mode_parameters current_mode].
  destruct (mode_lookup (mode_parameters self) m1) as [p1|];
    cbn [set_mode_values set_current_mode mode_parameters current_mode];
    rewrite Hp; reflexivity.
Qed.

Lemma select_mode_last_profile_wins_witness :
  select_mode (select_mode loaded_kit EXPERT) PRACTICE
  = select_mode loaded_kit PRACTICE.
Proof.
  apply (select_mode_last_profile_wins loaded_kit EXPERT PRACTICE
           {| p_down_threshold := 0.0015%float;
              p_up_threshold := 0.001%float;
              p_hand_cooldown := 0.15%float |}).
  reflexivity.
Defined.

(** ** The first visit of a channel *)

Lemma short_push_is_neutral (self : VirtualDrumkit) (y : float) :
  detect_downward_motion self (push_position self [] y) = false
  /\ detect_upward_motion self (push_position self [] y) = false.
Proof.
  unfold push_position, detect_downward_motion, detect_upward_motion.
  cbn [app length]. destruct (Z.of_nat 1 >? history_size self);
    split; reflexivity.
Qed.

(** X4. A visit of a channel whose position history is empty (as after
    construction) plays nothing and leaves the down-latch and the last-fire
    timestamp as they were, whatever the sample and the thresholds. *)
Theorem first_visit_never_fires :
  forall (self : VirtualDrumkit) (hand_side : string)
         (sound : FingerSound.t) (y now : float),
    FingerSound.last_positions sound = [] ->
    (finger_step self hand_side sound y now).2 = false
    /\ FingerSound.is_moving_down (finger_step self hand_side sound y now).1
       = FingerSound.is_moving_down sound
    /\ FingerSound.last_trigger_time
         (finger_step self hand_side sound y now).1
       = FingerSound.last_trigger_time sound.
Proof.
  intros self hand_side sound y now Hempty.
  destruct (short_push_is_neutral self y) as [Hdown Hup].
  assert (Hedge : down_edge self sound y = false)
    by (unfold down_edge; now rewrite Hempty, Hdown).
  assert (Hsilent : (finger_step self hand_side sound y now).2 = false)
    by (now rewrite finger_step_fired, Hedge).
  split; [exact Hsilent|]. split.
  - rewrite finger_step_latch, Hedge. unfold classified_up.
    now rewrite Hempty, Hup.
  - now rewrite finger_step_last_trigger_time, Hsilent.
Qed.

Lemma first_visit_never_fires_witness :
  (finger_step loaded_kit "RIGHT" (channel loaded_kit "RIGHT_INDEX")
               0.9%float 100%float).2 = false
  /\ FingerSound.is_moving_down
       (finger_step loaded_kit "RIGHT" (channel loaded_kit "RIGHT_INDEX")
                    0.9%float 100%float).1
     = FingerSound.is_moving_down (channel loaded_kit "RIGHT_INDEX")
  /\ FingerSound.last_trigger_time
       (finger_step loaded_kit "RIGHT" (channel loaded_kit "RIGHT_INDEX")
                    0.9%float 100%float).1
     = FingerSound.last_trigger_time (channel loaded_kit "RIGHT_INDEX").
Proof.
  apply (first_visit_never_fires loaded_kit "RIGHT"
           (channel loaded_kit "RIGHT_INDEX") 0.9%float 100%float).
  vm_compute. reflexivity.
Defined.

(** ** What a frame keeps *)

Lemma same_configuration_refl (a : FingerSound.t) : same_configuration a a.
Proof. repeat split. Qed.

Lemma same_configuration_trans (a b c : FingerSound.t) :
  same_configuration a b -> same_configuration b c -> same_configuration a c.
Proof.
  unfold same_configuration.
  intros (?&?&?&?&?&?&?) (?&?&?&?&?&?&?). repeat split; congruence.
Qed.

Lemma finger_step_same_configuration (self : VirtualDrumkit)
    (hand_side : string) (sound : FingerSound.t) (y now : float) :
  same_configuration (finger_step self hand_side sound y now).1 sound.
Proof. apply finger_step_static. Qed.

Lemma keeps_configuration_refl (self : VirtualDrumkit) :
  keeps_configuration self self.
Proof.
  split; [now destruct self|].
  intros key. destruct (finger_sounds self !! key);
    constructor. apply same_configuration_refl.
Qed.

Lemma keeps_configuration_trans (a b c : VirtualDrumkit) :
  keeps_configuration a b -> keeps_configuration b c ->
  keeps_configuration a c.
Proof.
  intros [Hab Cab] [Hbc Cbc]. split.
  - rewrite Hbc at 1. rewrite Hab at 1. reflexivity.
  - intros key. specialize (Cab key). specialize (Cbc key).
    destruct Cbc as [x y Hxy|]; inversion Cab as [y' z Hyz|]; subst;
      constructor.
    eapply same_configuration_trans; eassumption.
Qed.

Lemma process_finger_keeps_configuration (self : VirtualDrumkit)
    (hand_side : string) (hand_landmarks : HandLandmarks)
    (wrist_y current_time : float) (played : list string)
    (finger : string * nat) (self' : VirtualDrumkit)
    (played' : list string) :
  process_finger self hand_side hand_landmarks wrist_y current_time played
                 finger = Some (self', played') ->
  keeps_configuration self self'.
Proof.
  intros Hstep. apply process_finger_cases in Hstep
    as [[-> ->]|(snd0 & tip & Hk0 & _ & _ & -> & _)];
    [apply keeps_configuration_refl|].
  split; [reflexivity|]. intros key. cbn [finger_sounds set_finger_sounds].
  destruct (decide (finger_key hand_side finger.1 = key)) as [<-|Hne].
  - rewrite lookup_insert_eq, Hk0. constructor.
    apply finger_step_same_configuration.
  - rewrite lookup_insert_ne by exact Hne.
    destruct (finger_sounds self !! key); constructor.
    apply same_configuration_refl.
Qed.

Lemma process_frame_keeps_configuration (self : VirtualDrumkit)
    (frame : Frame) (self' : VirtualDrumkit) (played : list string) :
  process_frame self frame = Some (self', played) ->
  keeps_configuration self self'.
Proof.
  apply (process_frame_inv (fun s _ => keeps_configuration self s)).
  - intros s hs hl wy now p f s' p' Hs Hstep.
    eapply keeps_configuration_trans; [exact Hs|].
    eapply process_finger_keeps_configuration, Hstep.
  - apply keeps_configuration_refl.
Qed.

(** X5. Frames write nothing but the runtime state of the channels: after
    any list of frames the engine has the mode, skill level, thresholds,
    tables and hand-level state it had, the same channel keys, and every
    channel its name, file, sound, cooldown, volume, enabled flag and skill
    requirement; and there is one log per frame. *)
Theorem frames_keep_configuration :
  forall (frames : list Frame) (self self' : VirtualDrumkit)
         (log : list (list string)),
    process_frames self frames = Some (self', log) ->
    self' = set_finger_sounds self (finger_sounds self')
    /\ (forall key : string,
          option_Forall2 same_configuration
            (finger_sounds self' !! key) (finger_sounds self !! key))
    /\ length log = length frames.
Proof.
  induction frames as [|frame rest IH]; intros self self' log Hrun.
  - cbn in Hrun. inversion Hrun; subst.
    destruct (keeps_configuration_refl self') as [H1 H2].
    repeat split; assumption.
  - cbn [process_frames] in Hrun.
    destruct (process_frame self frame) as [[s1 p1]|] eqn:Hframe;
      [|discriminate].
    destruct (process_frames s1 rest) as [[s2 l2]|] eqn:Hrest;
      [|discriminate].
    inversion Hrun; subst.
    destruct (IH _ _ _ Hrest) as (H1 & H2 & H3).
    destruct (keeps_configuration_trans self s1 self'
                (process_frame_keeps_configuration _ _ _ _ Hframe)
                (conj H1 H2)) as [G1 G2].
    repeat split; [exact G1|exact G2|cbn; now rewrite H3].
Qed.

Lemma frames_keep_configuration_witness :
  after_frames loaded_kit sinking_frames
  = set_finger_sounds loaded_kit
      (finger_sounds (after_frames loaded_kit sinking_frames))
  /\ (forall key : string,
        option_Forall2 same_configuration
          (finger_sounds (after_frames loaded_kit sinking_frames) !! key)
          (finger_sounds loaded_kit !! key))
  /\ length (logs_of_frames loaded_kit sinking_frames)
     = length sinking_frames.
Proof.
  apply (frames_keep_configuration sinking_frames loaded_kit
           (after_frames loaded_kit sinking_frames)
           (logs_of_frames loaded_kit sinking_frames)).
  vm_compute. reflexivity.
Defined.

(** ** What a frame can play *)

(** X6. Every key in the log of a frame is the key of a channel of the
    engine whose sound is loaded, whose enabled flag is on and whose skill
    requirement is within the engine's skill level: a channel that is
    disabled, silent for lack of its file, or locked is never played. *)
Theorem played_channels_are_enabled :
  forall (self : VirtualDrumkit) (frame : Frame) (self' : VirtualDrumkit)
         (played : list string) (key : string),
    process_frame self frame = Some (self', played) ->
    key ∈ played ->
    exists sound : FingerSound.t,
      finger_sounds self !! key = Some sound
      /\ is_Some (FingerSound.sound sound)
      /\ FingerSound.is_active sound = true
      /\ FingerSound.skill_level sound <= skill_level self.
Proof.
  intros self frame self' played key Hrun Hin.
  pose (Inv := fun (s : VirtualDrumkit) (p : list string) =>
    keeps_configuration self s
    /\ forall k : string, k ∈ p ->
         exists sound : FingerSound.t,
           finger_sounds self !! k = Some sound
           /\ is_Some (FingerSound.sound sound)
           /\ FingerSound.is_active sound = true
           /\ FingerSound.skill_level sound <= skill_level self).
  assert (HInv : Inv self' played).
  { eapply (process_frame_inv Inv); [| |exact Hrun].
    - intros s hs hl wy now p f s' p' [Hs Hp] Hstep. split.
      + eapply keeps_configuration_trans; [exact Hs|].
        eapply process_finger_keeps_configuration, Hstep.
      + apply process_finger_cases in Hstep
          as [[-> ->]|(snd0 & tip & Hk0 & Hok & _ & -> & ->)]; [exact Hp|].
        destruct (finger_step s hs snd0 _ now).2 eqn:Hfired; [|exact Hp].
        intros k Hk. rewrite elem_of_app, list_elem_of_singleton in Hk.
        destruct Hk as [Hk| ->]; [now apply Hp|].
        destruct Hs as [Hset Hconf]. specialize (Hconf (finger_key hs f.1)).
        rewrite Hk0 in Hconf.
        inversion Hconf as [x a (_&_&Hsnd&_&_&Hact&Hskill) Hx Ha|]; subst.
        exists a. split; [reflexivity|].
        rewrite finger_step_fired in Hfired.
        apply andb_prop in Hfired as [Hfired Hactive].
        apply andb_prop in Hfired as [_ Hloaded].
        apply bool_decide_eq_true_1 in Hloaded.
        rewrite <- Hsnd, <- Hact, <- Hskill.
        replace (skill_level self) with (skill_level s)
          by (rewrite Hset; reflexivity).
        repeat split; assumption.
    - split; [apply keeps_configuration_refl|].
      intros k Hk. inversion Hk. }
  destruct HInv as [_ Hp]. now apply Hp.
Qed.

Lemma played_channels_are_enabled_witness :
  exists sound : FingerSound.t,
    finger_sounds (after_frames loaded_kit (take 1 sinking_frames))
      !! "RIGHT_INDEX" = Some sound
    /\ is_Some (FingerSound.sound sound)
    /\ FingerSound.is_active sound = true
    /\ FingerSound.skill_level sound
       <= skill_level (after_frames loaded_kit (take 1 sinking_frames)).
Proof.
  apply (played_channels_are_enabled
           (after_frames loaded_kit (take 1 sinking_frames))
           (frame_at [hand_at 0.5%float 0.51%float;
                      hand_at 0.5%float 0.51%float] 2%float)
           (after_frames loaded_kit (take 2 sinking_frames))
           ["RIGHT_THUMB"; "RIGHT_INDEX"; "RIGHT_MIDDLE"] "RIGHT_INDEX").
  - vm_compute. reflexivity.
  - set_solver.
Defined.

(** ** A frame, channel by channel *)

Lemma channel_run_settings (visits : list (float * float)) :
  forall (self : VirtualDrumkit) (m : gmap string FingerSound.t)
         (hand_side hand_side' : string) (sound : FingerSound.t),
    channel_run (set_finger_sounds self m) hand_side sound visits
    = channel_run self hand_side' sound visits.
Proof.
  induction visits as [|[y now] rest IH];
    intros self m hand_side hand_side' sound; [reflexivity|].
  rewrite !channel_run_cons.
  change (finger_step (set_finger_sounds self m) hand_side sound y now)
    with (finger_step self hand_side' sound y now).
  rewrite (IH self m hand_side hand_side'). reflexivity.
Qed.

Lemma plays_of_app (key : string) (p q : list string) :
  plays_of key (p ++ q)%list = (plays_of key p + plays_of key q)%nat.
Proof. induction p as [|k p IH]; cbn; [reflexivity|]. rewrite IH. lia. Qed.

Lemma plays_of_elem (key : string) (p : list string) :
  key ∈ p <-> (0 < plays_of key p)%nat.
Proof.
  induction p as [|k p IH]; cbn.
  - split; [intros H; inversion H|lia].
  - rewrite elem_of_cons, IH. destruct (bool_decide_reflect (k = key)).
    + split; [lia|]. intros _. left. congruence.
    + split; [intros [?|?]; [congruence|lia]|]. intros ?. right. lia.
Qed.

(** The finger loop of one hand, seen from one unlocked channel: it is
    [channel_run] over the visits the loop pays to that channel. *)
Lemma process_fingers_channel (fingers : list (string * nat)) :
  forall (self : VirtualDrumkit) (hand_side : string)
         (hand_landmarks : HandLandmarks) (wrist_y now : float)
         (played : list string) (self' : VirtualDrumkit)
         (played' : list string) (key hs : string) (sound : FingerSound.t),
    process_fingers self hand_side hand_landmarks wrist_y now played fingers
      = Some (self', played') ->
    finger_sounds self !! key = Some sound ->
    FingerSound.skill_level sound <= skill_level self ->
    self' = set_finger_sounds self (finger_sounds self')
    /\ finger_sounds self' !! key
       = Some (channel_run self hs sound
                 (finger_visits hand_side hand_landmarks wrist_y now key
                                fingers)).1
    /\ plays_of key played'
       = (plays_of key played
          + firings (channel_run self hs sound
                       (finger_visits hand_side hand_landmarks wrist_y now
                                      key fingers)).2)%nat.
Proof.
  induction fingers as [|[finger_name tip_idx] rest IH];
    intros self hand_side hl wrist_y now played self' played' key hs sound
           Hrun Hkey Hok.
  - cbn in Hrun. inversion Hrun; subst. cbn.
    repeat split; [now destruct self'|exact Hkey|lia].
  - cbn [process_fingers] in Hrun.
    destruct (process_finger self hand_side hl wrist_y now played
                (finger_name, tip_idx)) as [[s1 p1]|] eqn:Hstep;
      [|discriminate].
    cbn [finger_visits].
    destruct (bool_decide_reflect (finger_key hand_side finger_name = key))
      as [Heq|Hne].
    + unfold process_finger in Hstep. rewrite Heq, Hkey in Hstep.
      assert ((FingerSound.skill_level sound >? skill_level self) = false)
        as Hgt by (rewrite Z.gtb_ltb; apply Z.ltb_ge; exact Hok).
      rewrite Hgt in Hstep.
      destruct (nth_error hl tip_idx) as [tip|]; [|discriminate].
      change (finger_step self hand_side sound
                (PrimFloat.sub (lm_y tip) wrist_y) now)
        with (finger_step self hs sound
                (PrimFloat.sub (lm_y tip) wrist_y) now) in Hstep.
      rewrite channel_run_cons. cbn [fst snd firings].
      destruct (finger_step self hs sound
                  (PrimFloat.sub (lm_y tip) wrist_y) now)
        as [sound1 fired] eqn:Hfs.
      inversion Hstep; subst s1 p1. clear Hstep.
      cbn [fst snd].
      assert (Hskill1 : FingerSound.skill_level sound1
                        = FingerSound.skill_level sound).
      { pose proof (finger_step_static self hs sound
                      (PrimFloat.sub (lm_y tip) wrist_y) now) as Hst.
        rewrite Hfs in Hst. apply Hst. }
      destruct (IH _ _ _ _ _ _ _ _ key hs sound1 Hrun) as (H1 & H2 & H3).
      * cbn [finger_sounds set_finger_sounds]. apply lookup_insert_eq.
      * cbn [skill_level set_finger_sounds]. rewrite Hskill1. exact Hok.
      * rewrite (channel_run_settings _ self _ hs hs) in H2, H3.
        split; [rewrite H1 at 1; reflexivity|].
        split; [exact H2|]. rewrite H3.
        destruct fired; [|lia].
        rewrite plays_of_app. cbn [plays_of].
        rewrite bool_decide_eq_true_2 by reflexivity. lia.
    + apply process_finger_cases in Hstep
        as [[-> ->]|(snd0 & tip & Hk0 & _ & _ & -> & ->)].
      * eapply IH; eassumption.
      * cbn [fst] in *.
        destruct (IH _ _ _ _ _ _ _ _ key hs sound Hrun) as (H1 & H2 & H3).
        -- cbn [finger_sounds set_finger_sounds].
           rewrite lookup_insert_ne by exact Hne. exact Hkey.
        -- exact Hok.
        -- rewrite (channel_run_settings _ self _ hs hs) in H2, H3.
           split; [rewrite H1 at 1; reflexivity|].
           split; [exact H2|]. rewrite H3.
           destruct (finger_step self hand_side snd0 _ now).2; [|lia].
           rewrite plays_of_app. cbn [plays_of].
           rewrite bool_decide_eq_false_2 by exact Hne. lia.
Qed.

Lemma process_hands_channel (hands : list HandLandmarks) :
  forall (self : VirtualDrumkit) (hand_idx : nat) (now : float)
         (played : list string) (self' : VirtualDrumkit)
         (played' : list string) (key hs : string) (sound : FingerSound.t),
    process_hands self hand_idx hands now played = Some (self', played') ->
    finger_sounds self !! key = Some sound ->
    FingerSound.skill_level sound <= skill_level self ->
    self' = set_finger_sounds self (finger_sounds self')
    /\ finger_sounds self' !! key
       = Some (channel_run self hs sound
                 (hands_visits (finger_indices self) hand_idx hands now
                               key)).1
    /\ plays_of key played'
       = (plays_of key played
          + firings (channel_run self hs sound
                       (hands_visits (finger_indices self) hand_idx hands
                                     now key)).2)%nat.
Proof.
  induction hands as [|hl rest IH];
    intros self hand_idx now played self' played' key hs sound
           Hrun Hkey Hok.
  - cbn in Hrun. inversion Hrun; subst. cbn.
    repeat split; [now destruct self'|exact Hkey|lia].
  - cbn [process_hands] in Hrun.
    destruct (process_hand self hand_idx hl now played) as [[s1 p1]|]
      eqn:Hhand; [|discriminate].
    unfold process_hand in Hhand. cbn [hands_visits].
    destruct (nth_error hl 0) as [wrist|]; [|discriminate].
    destruct (process_fingers_channel _ _ _ _ _ _ _ _ _ key hs sound
                Hhand Hkey Hok) as (H1 & H2 & H3).
    set (v1 := finger_visits _ hl (lm_y wrist) now key (finger_indices self))
      in *.
    destruct (channel_run_static self hs v1 sound) as (_ & _ & _ & Hskill).
    cbn zeta in Hskill.
    destruct (IH _ _ _ _ _ _ key hs _ Hrun H2) as (G1 & G2 & G3).
    { rewrite Hskill, H1. exact Hok. }
    assert (Hidx : finger_indices s1 = finger_indices self)
      by (rewrite H1; reflexivity).
    rewrite Hidx in G2, G3. rewrite H1 in G2, G3.
    rewrite (channel_run_settings _ self _ hs hs) in G2, G3.
    rewrite channel_run_app. cbn [fst snd]. rewrite firings_app.
    split; [rewrite G1 at 1; rewrite H1 at 1; reflexivity|].
    split; [exact G2|]. rewrite G3, H3. lia.
Qed.

(** X7. A frame acts on each unlocked channel as [channel_run] over the
    visits the landmark loop pays to that channel's key, in order: the
    channel after the frame is the channel at the end of that run, and the
    key occurs in the frame's log as often as the run fired. *)
Theorem frame_is_channel_run :
  forall (self : VirtualDrumkit) (frame : Frame) (self' : VirtualDrumkit)
         (played : list string) (key hand_side : string)
         (sound : FingerSound.t),
    process_frame self frame = Some (self', played) ->
    finger_sounds self !! key = Some sound ->
    FingerSound.skill_level sound <= skill_level self ->
    finger_sounds self' !! key
    = Some (channel_run self hand_side sound
              (frame_visits self frame key)).1
    /\ plays_of key played
       = firings (channel_run self hand_side sound
                    (frame_visits self frame key)).2.
Proof.
  intros self frame self' played key hand_side sound Hrun Hkey Hok.
  unfold process_frame in Hrun.
  destruct (process_hands_channel _ _ _ _ _ _ _ key hand_side sound
              Hrun Hkey Hok) as (_ & H2 & H3).
  split; [exact H2|exact H3].
Qed.

Lemma frame_is_channel_run_witness :
  finger_sounds (after_frames loaded_kit (take 2 sinking_frames))
    !! "RIGHT_INDEX"
  = Some (channel_run (after_frames loaded_kit (take 1 sinking_frames))
            "RIGHT"
            (channel (after_frames loaded_kit (take 1 sinking_frames))
                     "RIGHT_INDEX")
            [(PrimFloat.sub 0.51%float 0.5%float, 2%float)]).1
  /\ plays_of "RIGHT_INDEX" ["RIGHT_THUMB"; "RIGHT_INDEX"; "RIGHT_MIDDLE"]
     = firings
         (channel_run (after_frames loaded_kit (take 1 sinking_frames))
            "RIGHT"
            (channel (after_frames loaded_kit (take 1 sinking_frames))
                     "RIGHT_INDEX")
            [(PrimFloat.sub 0.51%float 0.5%float, 2%float)]).2.
Proof.
  apply (frame_is_channel_run
           (after_frames loaded_kit (take 1 sinking_frames))
           (frame_at [hand_at 0.5%float 0.51%float;
                      hand_at 0.5%float 0.51%float] 2%float)
           (after_frames loaded_kit (take 2 sinking_frames))
           ["RIGHT_THUMB"; "RIGHT_INDEX"; "RIGHT_MIDDLE"]
           "RIGHT_INDEX" "RIGHT"
           (channel (after_frames loaded_kit (take 1 sinking_frames))
                    "RIGHT_INDEX")).
  - vm_compute. reflexivity.
  - vm_compute. reflexivity.
  - vm_compute. discriminate.
Defined.

(** ** The timestamp of a frame *)

(** As [FrameInduction], for a property that depends on the timestamp the
    frame's iterations share. *)
Section FrameInductionAt.
Variable now : float.
Variable Inv : VirtualDrumkit -> list string -> Prop.
Hypothesis Inv_finger :
  forall self hand_side hand_landmarks wrist_y played finger self' played',
    Inv self played ->
    process_finger self hand_side hand_landmarks wrist_y now played finger
      = Some (self', played') ->
    Inv self' played'.

Lemma process_fingers_inv_at (fingers : list (string * nat)) :
  forall self hand_side hand_landmarks wrist_y played self' played',
    Inv self played ->
    process_fingers self hand_side hand_landmarks wrist_y now played fingers
      = Some (self', played') ->
    Inv self' played'.
Proof.
  induction fingers as [|finger rest IH];
    intros self hand_side hl wrist_y played self' played' HI Hrun.
  - cbn in Hrun. now inversion Hrun; subst.
  - cbn [process_fingers] in Hrun.
    destruct (process_finger self hand_side hl wrist_y now played finger)
      as [[s1 p1]|] eqn:Hstep; [|discriminate].
    eapply IH; [|exact Hrun]. eapply Inv_finger; eassumption.
Qed.

Lemma process_hands_inv_at (hands : list HandLandmarks) :
  forall self hand_idx played self' played',
    Inv self played ->
    process_hands self hand_idx hands now played = Some (self', played') ->
    Inv self' played'.
Proof.
  induction hands as [|hl rest IH];
    intros self hand_idx played self' played' HI Hrun.
  - cbn in Hrun. now inversion Hrun; subst.
  - cbn [process_hands] in Hrun.
    destruct (process_hand self hand_idx hl now played)
      as [[s1 p1]|] eqn:Hhand; [|discriminate].
    eapply IH; [|exact Hrun].
    unfold process_hand in Hhand.
    destruct (nth_error hl 0) as [wrist|]; [|discriminate].
    eapply process_fingers_inv_at; eassumption.
Qed.
End FrameInductionAt.

(** X8. A frame stamps the channels it played, and only those: after the
    frame a channel's last-fire timestamp is the frame's timestamp when its
    key is in the log, and the timestamp it had before otherwise. *)
Theorem frame_stamps_played_channels :
  forall (self : VirtualDrumkit) (frame : Frame) (self' : VirtualDrumkit)
         (played : list string) (key : string) (sound' : FingerSound.t),
    process_frame self frame = Some (self', played) ->
    finger_sounds self' !! key = Some sound' ->
    exists sound : FingerSound.t,
      finger_sounds self !! key = Some sound
      /\ FingerSound.last_trigger_time sound'
         = if bool_decide (key ∈ played) then frame_time frame
           else FingerSound.last_trigger_time sound.
Proof.
  intros self frame self' played key sound' Hrun Hkey'.
  pose (Inv := fun (s : VirtualDrumkit) (p : list string) =>
    forall (k : string) (snd : FingerSound.t),
      finger_sounds s !! k = Some snd ->
      exists snd0 : FingerSound.t,
        finger_sounds self !! k = Some snd0
        /\ FingerSound.last_trigger_time snd
           = if bool_decide (k ∈ p) then frame_time frame
             else FingerSound.last_trigger_time snd0).
  assert (HInv : Inv self' played).
  { unfold process_frame in Hrun.
    eapply (process_hands_inv_at (frame_time frame) Inv); [| |exact Hrun].
    - intros s hs hl wy p f s' p' Hs Hstep.
      apply process_finger_cases in Hstep
        as [[-> ->]|(snd0 & tip & Hk0 & _ & _ & -> & ->)]; [exact Hs|].
      intros k snd. cbn [finger_sounds set_finger_sounds].
      destruct (decide (finger_key hs f.1 = k)) as [<-|Hne].
      + rewrite lookup_insert_eq. intros Hsnd; inversion Hsnd; subst snd.
        destruct (Hs _ _ Hk0) as (a & Ha & Hlast). exists a.
        split; [exact Ha|].
        rewrite finger_step_last_trigger_time.
        destruct (finger_step s hs snd0 _ (frame_time frame)).2.
        * rewrite bool_decide_eq_true_2; [reflexivity|].
          apply elem_of_app. right. apply list_elem_of_singleton.
          reflexivity.
        * exact Hlast.
      + rewrite lookup_insert_ne by exact Hne. intros Hsnd.
        destruct (Hs _ _ Hsnd) as (a & Ha & Hlast). exists a.
        split; [exact Ha|]. rewrite Hlast.
        destruct (finger_step s hs snd0 _ (frame_time frame)).2;
          [|reflexivity].
        apply (f_equal (fun b : bool =>
                 if b then frame_time frame
                 else FingerSound.last_trigger_time a)).
        apply bool_decide_ext.
        rewrite elem_of_app, list_elem_of_singleton.
        split; [tauto|]. intros [?|?]; [assumption|congruence].
    - intros k snd Hsnd. exists snd. split; [exact Hsnd|].
      rewrite bool_decide_eq_false_2; [reflexivity|]. intros H. inversion H. }
  exact (HInv key sound' Hkey').
Qed.

Lemma frame_stamps_played_channels_witness :
  exists sound : FingerSound.t,
    finger_sounds (after_frames loaded_kit (take 1 sinking_frames))
      !! "RIGHT_INDEX" = Some sound
    /\ FingerSound.last_trigger_time
         (channel (after_frames loaded_kit (take 2 sinking_frames))
                  "RIGHT_INDEX")
       = if bool_decide
              ("RIGHT_INDEX"
               ∈ ["RIGHT_THUMB"; "RIGHT_INDEX"; "RIGHT_MIDDLE"])
         then 2%float
         else FingerSound.last_trigger_time sound.
Proof.
  apply (frame_stamps_played_channels
           (after_frames loaded_kit (take 1 sinking_frames))
           (frame_at [hand_at 0.5%float 0.51%float;
                      hand_at 0.5%float 0.51%float] 2%float)
           (after_frames loaded_kit (take 2 sinking_frames))
           ["RIGHT_THUMB"; "RIGHT_INDEX"; "RIGHT_MIDDLE"] "RIGHT_INDEX"
           (channel (after_frames loaded_kit (take 2 sinking_frames))
                    "RIGHT_INDEX")).
  - vm_compute. reflexivity.
  - vm_compute. reflexivity.
Defined.

(** ** When a frame raises *)





(** X10. A detected hand without landmarks makes the frame raise (the
    [IndexError] of [landmark[0]]), whatever the engine and the other
    hands. *)
Theorem hand_without_landmarks_raises :
  forall (self : VirtualDrumkit) (frame : Frame),
    [] ∈ multi_hand_landmarks frame ->
    process_frame self frame = None.
Proof.
  intros self frame. unfold process_frame.
  generalize (frame_time frame) as now.
  generalize (@nil string) as played. generalize 0%nat as hand_idx.
  revert self.
  induction (multi_hand_landmarks frame) as [|hl rest IH];
    intros self hand_idx played now Hin; [inversion Hin|].
  cbn [process_hands].
  apply elem_of_cons in Hin as [<-|Hin]; [reflexivity|].
  destruct (process_hand self hand_idx hl now played) as [[s1 p1]|];
    [|reflexivity].
  now apply IH.
Qed.

Lemma hand_without_landmarks_raises_witness :
  process_frame loaded_kit
    (frame_at [hand_at 0.5%float 0.9%float; []] 1%float) = None.
Proof.
  apply (hand_without_landmarks_raises loaded_kit
           (frame_at [hand_at 0.5%float 0.9%float; []] 1%float)).
  set_solver.
Defined.

(** ** The order of the log *)

Lemma process_fingers_log (fingers : list (string * nat)) :
  forall (self : VirtualDrumkit) (hand_side : string)
         (hand_landmarks : HandLandmarks) (wrist_y now : float)
         (played : list string) (self' : VirtualDrumkit)
         (played' : list string),
    process_fingers self hand_side hand_landmarks wrist_y now played fingers
      = Some (self', played') ->
    finger_indices self' = finger_indices self
    /\ exists q : list string,
         played' = (played ++ q)%list
         /\ q `sublist_of` hand_keys hand_side fingers.
Proof.
  induction fingers as [|finger rest IH];
    intros self hand_side hl wrist_y now played self' played' Hrun.
  - cbn in Hrun. inversion Hrun; subst. split; [reflexivity|].
    exists []. split; [now rewrite app_nil_r|constructor].
  - cbn [process_fingers] in Hrun.
    destruct (process_finger self hand_side hl wrist_y now played finger)
      as [[s1 p1]|] eqn:Hstep; [|discriminate].
    destruct (IH _ _ _ _ _ _ _ _ Hrun) as (Hidx & q & -> & Hq).
    cbn [hand_keys map].
    apply process_finger_cases in Hstep
      as [[-> ->]|(snd0 & tip & _ & _ & _ & -> & ->)].
    + split; [exact Hidx|]. exists q. split; [reflexivity|].
      now apply sublist_cons.
    + split; [exact Hidx|].
      destruct (finger_step self hand_side snd0 _ now).2.
      * exists (finger_key hand_side finger.1 :: q).
        split; [now rewrite <- app_assoc|]. now apply sublist_skip.
      * exists q. split; [reflexivity|]. now apply sublist_cons.
Qed.

(** X11. In a frame with at most two hands the log lists channels in the
    order left hand first, then right hand, each hand in the order of
    [finger_indices]; with the indices of [__init__] no channel is played
    twice in one frame. *)
Theorem two_hands_play_each_channel_once :
  forall (self : VirtualDrumkit) (frame : Frame) (self' : VirtualDrumkit)
         (played : list string),
    (length (multi_hand_landmarks frame) <= 2)%nat ->
    process_frame self frame = Some (self', played) ->
    played `sublist_of` (hand_keys "LEFT" (finger_indices self)
                         ++ hand_keys "RIGHT" (finger_indices self))%list
    /\ (finger_indices self = initial_finger_indices -> NoDup played).
Proof.
  intros self frame self' played Hlen Hrun.
  assert (Hsub : played `sublist_of`
                   (hand_keys "LEFT" (finger_indices self)
                    ++ hand_keys "RIGHT" (finger_indices self))%list).
  { unfold process_frame in Hrun.
    destruct (multi_hand_landmarks frame) as [|h0 [|h1 [|h2 rest]]];
      cbn [process_hands] in Hrun; [| | |cbn in Hlen; lia].
    - inversion Hrun; subst. apply sublist_nil_l.
    - destruct (process_hand self 0 h0 (frame_time frame) [])
        as [[s1 p1]|] eqn:H0; [|discriminate].
      inversion Hrun; subst. unfold process_hand in H0.
      destruct (nth_error h0 0); [|discriminate].
      apply process_fingers_log in H0 as (_ & q & -> & Hq).
      cbn [app]. now apply sublist_inserts_r.
    - destruct (process_hand self 0 h0 (frame_time frame) [])
        as [[s1 p1]|] eqn:H0; [|discriminate].
      destruct (process_hand s1 1 h1 (frame_time frame) p1)
        as [[s2 p2]|] eqn:H1; [|discriminate].
      inversion Hrun; subst. unfold process_hand in H0, H1.
      destruct (nth_error h0 0); [|discriminate].
      destruct (nth_error h1 0); [|discriminate].
      apply process_fingers_log in H0 as (Hidx & q0 & -> & Hq0).
      apply process_fingers_log in H1 as (_ & q1 & -> & Hq1).
      rewrite Hidx in Hq1. cbn [app Nat.eqb] in *.
      now apply sublist_app. }
  split; [exact Hsub|]. intros Hidx. rewrite Hidx in Hsub.
  eapply sublist_NoDup; [|exact Hsub].
  apply (bool_decide_unpack _). vm_compute. exact I.
Qed.

Lemma two_hands_play_each_channel_once_witness :
  ["RIGHT_THUMB"; "RIGHT_INDEX"; "RIGHT_MIDDLE"]
    `sublist_of`
    (hand_keys "LEFT"
       (finger_indices (after_frames loaded_kit (take 1 sinking_frames)))
     ++ hand_keys "RIGHT"
          (finger_indices (after_frames loaded_kit (take 1 sinking_frames)))
    )%list
  /\ (finger_indices (after_frames loaded_kit (take 1 sinking_frames))
      = initial_finger_indices ->
      NoDup ["RIGHT_THUMB"; "RIGHT_INDEX"; "RIGHT_MIDDLE"]).
Proof.
  apply (two_hands_play_each_channel_once
           (after_frames loaded_kit (take 1 sinking_frames))
           (frame_at [hand_at 0.5%float 0.51%float;
                      hand_at 0.5%float 0.51%float] 2%float)
           (after_frames loaded_kit (take 2 sinking_frames))).
  - cbn. lia.
  - vm_compute. reflexivity.
Defined.

(** ** A run of [main] up to the capture loop *)

Lemma initial_channel_is_made (key : string) (sound : FingerSound.t) :
  initial_finger_sounds !! key = Some sound ->
  exists (n f : string) (k : Z),
    sound = FingerSound.make n f k /\ 1 <= k <= 3.
Proof.
  intros Hkey. apply elem_of_list_to_map_2 in Hkey.
  repeat (apply elem_of_cons in Hkey as [Hkey|Hkey];
          [inversion Hkey; subst; eexists _, _, _; split;
           [reflexivity|lia]|]).
  inversion Hkey.
Qed.

Lemma finger_sounds_select_mode (self : VirtualDrumkit) (m : Mode) :
  finger_sounds (select_mode self m) = finger_sounds self
  /\ skill_level (select_mode self m) = skill_level self
  /\ finger_indices (select_mode self m) = finger_indices self.
Proof.
  unfold select_mode, update_mode_parameters.
  destruct (mode_lookup _ _); repeat split; reflexivity.
Qed.

(** The channels after the sidebar: each is a channel of the catalogue,
    run through the sound loader and the two widget loops. *)
Lemma main_setup_lookup (file_exists : string -> bool) (w : Widgets)
    (key : string) :
  exists s2 s3 : VirtualDrumkit,
    skill_level s2 = skill_level (main_setup file_exists w)
    /\ skill_level s3 = skill_level (main_setup file_exists w)
    /\ finger_indices (main_setup file_exists w) = initial_finger_indices
    /\ finger_sounds (main_setup file_exists w) !! key
       = (fun sound0 =>
            enable_control s3 w
              (volume_control s2 w (load_sound file_exists sound0)))
         <$> initial_finger_sounds !! key.
Proof.
  unfold main_setup, main_sidebar.
  set (d1 := select_mode (init file_exists) (selectbox_mode w)).
  set (d2 := if negb (slider_skill w (skill_level d1) =? skill_level d1)
             then set_skill_level d1 (slider_skill w (skill_level d1))
             else d1).
  set (d3 := set_finger_sounds d2 (volume_control d2 w <$> finger_sounds d2)).
  exists d2, d3. cbn [skill_level finger_indices finger_sounds
                      set_finger_sounds].
  assert (Hfs : finger_sounds d2
                = load_sound file_exists <$> initial_finger_sounds).
  { assert (finger_sounds d2 = finger_sounds d1) as ->
      by (unfold d2; destruct (negb _); reflexivity).
    unfold d1.
    destruct (finger_sounds_select_mode (init file_exists)
                (selectbox_mode w)) as (-> & _ & _).
    reflexivity. }
  assert (Hidx : finger_indices d2 = initial_finger_indices).
  { assert (finger_indices d2 = finger_indices d1) as ->
      by (unfold d2; destruct (negb _); reflexivity).
    unfold d1.
    destruct (finger_sounds_select_mode (init file_exists)
                (selectbox_mode w)) as (_ & _ & ->).
    reflexivity. }
  repeat split; [exact Hidx|].
  change (finger_sounds d3) with (volume_control d2 w <$> finger_sounds d2).
  rewrite Hfs, !lookup_fmap.
  destruct (initial_finger_sounds !! key); reflexivity.
Qed.

Lemma load_sound_made (file_exists : string -> bool) (n f : string)
    (k : Z) :
  let sound := load_sound file_exists (FingerSound.make n f k) in
  FingerSound.name sound = n
  /\ FingerSound.sound_file sound = f
  /\ FingerSound.skill_level sound = k
  /\ FingerSound.cooldown sound = 0.15%float
  /\ FingerSound.last_positions sound = []
  /\ FingerSound.is_moving_down sound = false
  /\ FingerSound.last_trigger_time sound = 0%float
  /\ FingerSound.is_active sound = true
  /\ (is_Some (FingerSound.sound sound) <-> file_exists f = true)
  /\ volume_synced sound.
Proof.
  unfold load_sound, volume_synced. cbn [FingerSound.make
    FingerSound.sound_file FingerSound.name].
  destruct (file_exists f).
  - destruct (str_contains "Kick" n); [|destruct (str_contains "Cymbal" n)];
      cbn; (repeat split; try reflexivity; try (intros _; eexists; reflexivity));
      intros snd Hsnd; inversion Hsnd; reflexivity.
  - cbn. repeat split; try reflexivity; try discriminate.
    intros [x Hx]. discriminate Hx.
Qed.

Lemma volume_control_keeps (self : VirtualDrumkit) (w : Widgets)
    (sound : FingerSound.t) :
  let sound' := volume_control self w sound in
  FingerSound.name sound' = FingerSound.name sound
  /\ FingerSound.sound_file sound' = FingerSound.sound_file sound
  /\ FingerSound.skill_level sound' = FingerSound.skill_level sound
  /\ FingerSound.cooldown sound' = FingerSound.cooldown sound
  /\ FingerSound.last_positions sound' = FingerSound.last_positions sound
  /\ FingerSound.is_moving_down sound' = FingerSound.is_moving_down sound
  /\ FingerSound.last_trigger_time sound'
     = FingerSound.last_trigger_time sound
  /\ FingerSound.is_active sound' = FingerSound.is_active sound
  /\ (is_Some (FingerSound.sound sound')
      <-> is_Some (FingerSound.sound sound))
  /\ (volume_synced sound -> volume_synced sound').
Proof.
  unfold volume_control, volume_synced.
  destruct (FingerSound.skill_level sound <=? skill_level self);
    [|cbn; repeat split; tauto].
  destruct (negb _); [|cbn; repeat split; tauto].
  cbn [FingerSound.set_volume FingerSound.sound].
  destruct (FingerSound.sound sound) as [snd0|] eqn:Hs; cbn;
    repeat split; try reflexivity; try tauto;
    try (intros _; eexists; reflexivity); rewrite ?Hs; try tauto.
  - intros _ snd Hsnd. inversion Hsnd. reflexivity.
  - intros _ snd Hsnd. discriminate Hsnd.
Qed.

(** X12. Every run of [main] enters the capture loop with the channels of
    the catalogue of [__init__] and no others, whatever files exist and
    whatever the widgets return; each channel has its catalogue name, file
    and skill requirement, cooldown 0.15, an empty position history, the
    down-latch off and last-fire time 0; its sound is loaded exactly when
    its file exists; and the volume set on the loaded sound is the
    channel's volume. *)
Theorem main_setup_channels :
  forall (file_exists : string -> bool) (w : Widgets) (key : string),
    (is_Some (finger_sounds (main_setup file_exists w) !! key)
     <-> is_Some (initial_finger_sounds !! key))
    /\ forall sound : FingerSound.t,
         finger_sounds (main_setup file_exists w) !! key = Some sound ->
         exists sound0 : FingerSound.t,
           initial_finger_sounds !! key = Some sound0
           /\ FingerSound.name sound = FingerSound.name sound0
           /\ FingerSound.sound_file sound = FingerSound.sound_file sound0
           /\ FingerSound.skill_level sound = FingerSound.skill_level sound0
           /\ FingerSound.cooldown sound = 0.15%float
           /\ FingerSound.last_positions sound = []
           /\ FingerSound.is_moving_down sound = false
           /\ FingerSound.last_trigger_time sound = 0%float
           /\ (is_Some (FingerSound.sound sound)
               <-> file_exists (FingerSound.sound_file sound) = true)
           /\ volume_synced sound.
Proof.
  intros file_exists w key.
  destruct (main_setup_lookup file_exists w key)
    as (s2 & s3 & _ & _ & _ & Hlook).
  split.
  - rewrite Hlook. destruct (initial_finger_sounds !! key); cbn;
      split; intros [x Hx]; try discriminate; eexists; reflexivity.
  - intros sound Hsound. rewrite Hlook in Hsound.
    destruct (initial_finger_sounds !! key) as [sound0|] eqn:Hkey;
      [|discriminate].
    cbn in Hsound. inversion Hsound as [Hdef]. clear Hsound.
    exists sound0. split; [reflexivity|].
    destruct (initial_channel_is_made key sound0 Hkey)
      as (n & f & k & -> & _).
    destruct (load_sound_made file_exists n f k)
      as (L1 & L2 & L3 & L4 & L5 & L6 & L7 & L8 & L9 & L10).
    destruct (volume_control_keeps s2 w
                (load_sound file_exists (FingerSound.make n f k)))
      as (V1 & V2 & V3 & V4 & V5 & V6 & V7 & V8 & V9 & V10).
    cbn zeta in *.
    set (a := load_sound file_exists (FingerSound.make n f k)) in *.
    set (b := volume_control s2 w a) in *.
    assert (He : forall x : FingerSound.t,
               FingerSound.name (enable_control s3 w x) = FingerSound.name x
               /\ FingerSound.sound_file (enable_control s3 w x)
                  = FingerSound.sound_file x
               /\ FingerSound.skill_level (enable_control s3 w x)
                  = FingerSound.skill_level x
               /\ FingerSound.cooldown (enable_control s3 w x)
                  = FingerSound.cooldown x
               /\ FingerSound.last_positions (enable_control s3 w x)
                  = FingerSound.last_positions x
               /\ FingerSound.is_moving_down (enable_control s3 w x)
                  = FingerSound.is_moving_down x
               /\ FingerSound.last_trigger_time (enable_control s3 w x)
                  = FingerSound.last_trigger_time x
               /\ FingerSound.sound (enable_control s3 w x)
                  = FingerSound.sound x
               /\ FingerSound.volume (enable_control s3 w x)
                  = FingerSound.volume x).
    { intros x. unfold enable_control.
      destruct (FingerSound.skill_level x <=? skill_level s3);
        repeat split; reflexivity. }
    destruct (He b) as (E1 & E2 & E3 & E4 & E5 & E6 & E7 & E8 & E9).
    cbn [FingerSound.make FingerSound.name FingerSound.sound_file
         FingerSound.skill_level].
    rewrite E1, E2, E3, E4, E5, E6, E7, E8.
    rewrite V1, V2, V3, V4, V5, V6, V7, V9.
    rewrite L1, L2, L3, L4, L5, L6, L7, L9.
    repeat split; try reflexivity; try tauto.
    unfold volume_synced. rewrite E8, E9. apply V10, L10.
Qed.

(** X13. With Custom picked in the select box, a run of [main] enters the
    capture loop in mode Custom with the thresholds and the hand cooldown
    of Training: the engine is new on every run, so the profile Custom
    leaves in place is always the one [__init__] applied. *)
Theorem custom_mode_runs_training_profile :
  forall (file_exists : string -> bool) (w : Widgets),
    selectbox_mode w = CUSTOM ->
    current_mode (main_setup file_exists w) = CUSTOM
    /\ down_threshold (main_setup file_exists w) = 0.002%float
    /\ up_threshold (main_setup file_exists w) = 0.001%float
    /\ hand_cooldown (main_setup file_exists w) = 0.2%float.
Proof.
  intros file_exists w Hmode. unfold main_setup, main_sidebar.
  rewrite Hmode.
  destruct (negb _); repeat split; reflexivity.
Qed.

Lemma custom_mode_runs_training_profile_witness :
  current_mode (main_setup (fun _ => true) (default_widgets CUSTOM)) = CUSTOM
  /\ down_threshold (main_setup (fun _ => true) (default_widgets CUSTOM))
     = 0.002%float
  /\ up_threshold (main_setup (fun _ => true) (default_widgets CUSTOM))
     = 0.001%float
  /\ hand_cooldown (main_setup (fun _ => true) (default_widgets CUSTOM))
     = 0.2%float.
Proof.
  apply (custom_mode_runs_training_profile (fun _ => true)
           (default_widgets CUSTOM)).
  reflexivity.
Defined.

(** ** One hand in view *)

(** A finger whose channel is missing or locked is passed over. *)
Lemma process_finger_locked (self : VirtualDrumkit) (hand_side : string)
    (hand_landmarks : HandLandmarks) (wrist_y now : float)
    (played : list string) (finger : string * nat) :
  (forall sound : FingerSound.t,
      finger_sounds self !! finger_key hand_side finger.1 = Some sound ->
      FingerSound.skill_level sound > skill_level self) ->
  process_finger self hand_side hand_landmarks wrist_y now played finger
  = Some (self, played).
Proof.
  intros Hlocked. destruct finger as [finger_name tip_idx].
  unfold process_finger. cbn [fst] in Hlocked.
  destruct (finger_sounds self !! finger_key hand_side finger_name)
    as [sound|]; [|reflexivity].
  assert ((FingerSound.skill_level sound >? skill_level self) = true) as ->
    by (rewrite Z.gtb_ltb; apply Z.ltb_lt; specialize (Hlocked _ eq_refl);
        lia).
  reflexivity.
Qed.

Lemma process_fingers_locked (fingers : list (string * nat)) :
  forall (self : VirtualDrumkit) (hand_side : string)
         (hand_landmarks : HandLandmarks) (wrist_y now : float)
         (played : list string),
    Forall (fun finger =>
              forall sound : FingerSound.t,
                finger_sounds self !! finger_key hand_side finger.1
                  = Some sound ->
                FingerSound.skill_level sound > skill_level self) fingers ->
    process_fingers self hand_side hand_landmarks wrist_y now played fingers
    = Some (self, played).
Proof.
  induction fingers as [|finger rest IH];
    intros self hand_side hl wrist_y now played Hall; [reflexivity|].
  inversion Hall as [|f l Hf Hrest]; subst.
  cbn [process_fingers]. rewrite process_finger_locked by exact Hf.
  now apply IH.
Qed.

(** At skill level 1 every channel of the left hand is locked. *)
Lemma main_setup_left_hand_locked (file_exists : string -> bool)
    (w : Widgets) :
  skill_level (main_setup file_exists w) <= 1 ->
  Forall (fun finger =>
            forall sound : FingerSound.t,
              finger_sounds (main_setup file_exists w)
                !! finger_key "LEFT" finger.1 = Some sound ->
              FingerSound.skill_level sound
              > skill_level (main_setup file_exists w))
         (finger_indices (main_setup file_exists w)).
Proof.
  intros Hlevel.
  destruct (main_setup_lookup file_exists w "") as (? & ? & _ & _ & -> & _).
  assert (Hleft : forall key : string,
             key ∈ hand_keys "LEFT" initial_finger_indices ->
             forall sound : FingerSound.t,
               finger_sounds (main_setup file_exists w) !! key = Some sound ->
               FingerSound.skill_level sound
               > skill_level (main_setup file_exists w)).
  { intros key Hin sound Hsound.
    destruct (main_setup_lookup file_exists w key)
      as (s2 & s3 & _ & _ & _ & Hlook).
    rewrite Hlook in Hsound.
    assert (exists sound0 : FingerSound.t,
               initial_finger_sounds !! key = Some sound0
               /\ 2 <= FingerSound.skill_level sound0) as (sound0 & H0 & Hk).
    { cbn in Hin.
      repeat (apply elem_of_cons in Hin as [->|Hin];
              [eexists; split; [vm_compute; reflexivity|cbn; lia]|]).
      inversion Hin. }
    rewrite H0 in Hsound. cbn in Hsound. inversion Hsound as [Hdef].
    assert (Hskill :
      FingerSound.skill_level
        (enable_control s3 w (volume_control s2 w
                                (load_sound file_exists sound0)))
      = FingerSound.skill_level sound0).
    { unfold enable_control, volume_control, load_sound.
      repeat match goal with
             | |- context [if ?b then _ else _] => destruct b
             | |- context [match ?o with Some _ => _ | None => _ end] =>
                 destruct o
             end; reflexivity. }
    rewrite Hskill. lia. }
  unfold initial_finger_indices.
  repeat (apply Forall_cons; split;
          [apply Hleft; cbn; set_solver|]).
  apply Forall_nil. exact I.
Qed.

(** X14. At skill level 1 a single hand plays nothing. The first detected
    hand is taken as the left hand, and every left-hand channel of the
    catalogue needs skill level 2 or 3: through any list of frames with at
    most one hand each, an engine set up by [main] at level 1 stays exactly
    as it was and every log is empty. *)
Theorem single_hand_is_silent_at_level_one :
  forall (file_exists : string -> bool) (w : Widgets) (frames : list Frame)
         (self' : VirtualDrumkit) (log : list (list string)),
    skill_level (main_setup file_exists w) <= 1 ->
    Forall (fun frame => (length (multi_hand_landmarks frame) <= 1)%nat)
           frames ->
    process_frames (main_setup file_exists w) frames = Some (self', log) ->
    self' = main_setup file_exists w
    /\ Forall (fun played => played = []) log.
Proof.
  intros file_exists w frames self' log Hlevel.
  pose proof (main_setup_left_hand_locked file_exists w Hlevel) as Hlocked.
  set (kit := main_setup file_exists w) in *. clearbody kit.
  revert self' log.
  induction frames as [|frame rest IH]; intros self' log Hone Hrun.
  - cbn in Hrun. inversion Hrun; subst. split; constructor.
  - inversion Hone as [|f l Hlen Hrest]; subst.
    cbn [process_frames] in Hrun.
    assert (Hframe : process_frame kit frame = Some (kit, [])
                     \/ process_frame kit frame = None).
    { unfold process_frame.
      destruct (multi_hand_landmarks frame) as [|h0 [|h1 more]];
        [left; reflexivity| |cbn in Hlen; lia].
      cbn [process_hands]. unfold process_hand.
      destruct (nth_error h0 0) as [wrist|]; [|right; reflexivity].
      cbn [Nat.eqb].
      rewrite process_fingers_locked by exact Hlocked.
      left. reflexivity. }
    destruct Hframe as [Hframe|Hframe]; rewrite Hframe in Hrun;
      [|discriminate].
    destruct (process_frames kit rest) as [[s2 l2]|] eqn:Hrest';
      [|discriminate].
    inversion Hrun; subst.
    destruct (IH _ _ Hrest eq_refl) as [-> Hl].
    split; [reflexivity|]. constructor; [reflexivity|exact Hl].
Qed.

Lemma single_hand_is_silent_at_level_one_witness :
  after_frames (main_setup (fun _ => true) (default_widgets EXPERT))
    [frame_at [hand_at 0.5%float 0.5%float] 1%float;
     frame_at [hand_at 0.5%float 0.7%float] 2%float;
     frame_at [hand_at 0.5%float 0.9%float] 3%float]
  = main_setup (fun _ => true) (default_widgets EXPERT)
  /\ Forall (fun played => played = [])
       (logs_of_frames (main_setup (fun _ => true) (default_widgets EXPERT))
          [frame_at [hand_at 0.5%float 0.5%float] 1%float;
           frame_at [hand_at 0.5%float 0.7%float] 2%float;
           frame_at [hand_at 0.5%float 0.9%float] 3%float]).
Proof.
  apply (single_hand_is_silent_at_level_one (fun _ => true)
           (default_widgets EXPERT)
           [frame_at [hand_at 0.5%float 0.5%float] 1%float;
            frame_at [hand_at 0.5%float 0.7%float] 2%float;
            frame_at [hand_at 0.5%float 0.9%float] 3%float]).
  - vm_compute. discriminate.
  - repeat constructor.
  - vm_compute. reflexivity.
Defined.

(** ** Cooldown and latch, frame by frame *)

(** The visits of a frame all carry the frame's timestamp. *)
Lemma finger_visits_time (fingers : list (string * nat))
    (hand_side : string) (hand_landmarks : HandLandmarks)
    (wrist_y now : float) (key : string) :
  Forall (fun visit => visit.2 = now)
         (finger_visits hand_side hand_landmarks wrist_y now key fingers).
Proof.
  induction fingers as [|[finger_name tip_idx] rest IH]; [constructor|].
  cbn [finger_visits]. destruct (bool_decide _); [|exact IH].
  destruct (nth_error hand_landmarks tip_idx); [|exact IH].
  constructor; [reflexivity|exact IH].
Qed.

Lemma hands_visits_time (hands : list HandLandmarks) :
  forall (fingers : list (string * nat)) (hand_idx : nat) (now : float)
         (key : string),
    Forall (fun visit => visit.2 = now)
           (hands_visits fingers hand_idx hands now key).
Proof.
  induction hands as [|hl rest IH]; intros fingers hand_idx now key;
    [constructor|].
  cbn [hands_visits]. apply Forall_app. split; [|apply IH].
  destruct (nth_error hl 0); [apply finger_visits_time|constructor].
Qed.

(** A run of visits at one timestamp fires only if the cooldown counted
    from the channel's last-fire time at the start of the run is over. *)
Lemma channel_run_fires_after_cooldown (self : VirtualDrumkit)
    (hand_side : string) (now : float) (visits : list (float * float)) :
  forall sound : FingerSound.t,
    Forall (fun visit => visit.2 = now) visits ->
    (0 < firings (channel_run self hand_side sound visits).2)%nat ->
    PrimFloat.ltb (PrimFloat.sub now (FingerSound.last_trigger_time sound))
                  (FingerSound.cooldown sound) = false.
Proof.
  induction visits as [|[y t] rest IH]; intros sound Hall Hfired.
  - cbn in Hfired. lia.
  - inversion Hall as [|v l Ht Hrest]; subst. cbn [snd] in *.
    rewrite channel_run_cons in Hfired. cbn [snd firings] in Hfired.
    destruct (finger_step self hand_side sound y t).2 eqn:Hstep.
    + rewrite finger_step_fired in Hstep.
      do 2 (apply andb_prop in Hstep as [Hstep _]).
      apply andb_prop in Hstep as [_ Hcan].
      unfold can_trigger_sound in Hcan.
      destruct (FingerSound.skill_level sound >? skill_level self);
        [discriminate|].
      destruct (PrimFloat.ltb _ _); [discriminate|reflexivity].
    + specialize (IH _ Hrest Hfired).
      rewrite finger_step_last_trigger_time, Hstep in IH.
      destruct (finger_step_static self hand_side sound y t)
        as (_ & _ & _ & Hcool & _).
      cbn zeta in Hcool. now rewrite Hcool in IH.
Qed.

(** X15. A frame plays an unlocked channel only if the channel's cooldown,
    counted from its last-fire time at the start of the frame to the
    frame's timestamp, is over. *)
Theorem frame_respects_cooldown :
  forall (self : VirtualDrumkit) (frame : Frame) (self' : VirtualDrumkit)
         (played : list string) (key : string) (sound : FingerSound.t),
    process_frame self frame = Some (self', played) ->
    finger_sounds self !! key = Some sound ->
    FingerSound.skill_level sound <= skill_level self ->
    key ∈ played ->
    PrimFloat.ltb
      (PrimFloat.sub (frame_time frame) (FingerSound.last_trigger_time sound))
      (FingerSound.cooldown sound) = false.
Proof.
  intros self frame self' played key sound Hrun Hkey Hok Hin.
  unfold process_frame in Hrun.
  destruct (process_hands_channel _ _ _ _ _ _ _ key "" sound Hrun Hkey Hok)
    as (_ & _ & Hplays).
  apply plays_of_elem in Hin. rewrite Hplays in Hin. cbn [plays_of] in Hin.
  eapply channel_run_fires_after_cooldown; [|exact Hin].
  apply hands_visits_time.
Qed.

Lemma frame_respects_cooldown_witness :
  PrimFloat.ltb
    (PrimFloat.sub 2%float
       (FingerSound.last_trigger_time
          (channel (after_frames loaded_kit (take 1 sinking_frames))
                   "RIGHT_INDEX")))
    (FingerSound.cooldown
       (channel (after_frames loaded_kit (take 1 sinking_frames))
                "RIGHT_INDEX")) = false.
Proof.
  apply (frame_respects_cooldown
           (after_frames loaded_kit (take 1 sinking_frames))
           (frame_at [hand_at 0.5%float 0.51%float;
                      hand_at 0.5%float 0.51%float] 2%float)
           (after_frames loaded_kit (take 2 sinking_frames))
           ["RIGHT_THUMB"; "RIGHT_INDEX"; "RIGHT_MIDDLE"] "RIGHT_INDEX"
           (channel (after_frames loaded_kit (take 1 sinking_frames))
                    "RIGHT_INDEX")).
  - vm_compute. reflexivity.
  - vm_compute. reflexivity.
  - vm_compute. discriminate.
  - set_solver.
Defined.

(** With the fingertip table of [__init__], up to two hands visit a
    channel at most once in a frame. *)
Lemma two_hands_visit_once (hands : list HandLandmarks) (now : float)
    (key : string) :
  (length hands <= 2)%nat ->
  (length (hands_visits initial_finger_indices 0 hands now key) <= 1)%nat.
Proof.
  intros Hlen.
  destruct hands as [|h0 [|h1 [|h2 rest]]]; [| | |cbn in Hlen; lia];
    cbn [hands_visits Nat.eqb]; [cbn; lia| |].
  - rewrite app_nil_r. destruct (nth_error h0 0); [|cbn; lia].
    unfold initial_finger_indices. cbn [finger_visits].
    repeat (case_bool_decide;
            [subst key;
             repeat (rewrite bool_decide_eq_false_2 by discriminate);
             destruct (nth_error h0 _); cbn; lia|]).
    cbn. lia.
  - rewrite app_nil_r, length_app.
    destruct (nth_error h0 0), (nth_error h1 0);
      unfold initial_finger_indices; cbn [finger_visits];
      repeat (case_bool_decide;
              [subst key;
               repeat (rewrite bool_decide_eq_false_2 by discriminate);
               repeat match goal with
                      | |- context [nth_error ?h ?i] =>
                          destruct (nth_error h i)
                      end; cbn; lia|]);
      cbn; lia.
Qed.

(** X16. In a frame with at most two hands a channel that enters the
    frame latched is not played by it (fingertip table of [__init__]). *)
Theorem latched_channel_waits_for_release :
  forall (self : VirtualDrumkit) (frame : Frame) (self' : VirtualDrumkit)
         (played : list string) (key : string) (sound : FingerSound.t),
    finger_indices self = initial_finger_indices ->
    (length (multi_hand_landmarks frame) <= 2)%nat ->
    process_frame self frame = Some (self', played) ->
    finger_sounds self !! key = Some sound ->
    FingerSound.skill_level sound <= skill_level self ->
    FingerSound.is_moving_down sound = true ->
    key ∉ played.
Proof.
  intros self frame self' played key sound Hidx Hlen Hrun Hkey Hok Hlatched.
  unfold process_frame in Hrun.
  destruct (process_hands_channel _ _ _ _ _ _ _ key "" sound Hrun Hkey Hok)
    as (_ & _ & Hplays).
  rewrite plays_of_elem, Hplays. cbn [plays_of]. rewrite Hidx.
  pose proof (two_hands_visit_once (multi_hand_landmarks frame)
                (frame_time frame) key Hlen) as Hone.
  destruct (hands_visits initial_finger_indices 0
              (multi_hand_landmarks frame) (frame_time frame) key)
    as [|[y t] [|v rest]]; [cbn; lia| |cbn in Hone; lia].
  rewrite channel_run_cons. cbn [snd firings channel_run].
  rewrite finger_step_fired. unfold down_edge. rewrite Hlatched.
  rewrite andb_false_r. cbn. lia.
Qed.

Lemma latched_channel_waits_for_release_witness :
  "RIGHT_INDEX" ∉ (@nil string).
Proof.
  apply (latched_channel_waits_for_release
           (after_frames loaded_kit (take 2 sinking_frames))
           (frame_at [hand_at 0.5%float 0.52%float;
                      hand_at 0.5%float 0.52%float] 3%float)
           (after_frames loaded_kit (take 3 sinking_frames))
           [] "RIGHT_INDEX"
           (channel (after_frames loaded_kit (take 2 sinking_frames))
                    "RIGHT_INDEX")).
  - vm_compute. reflexivity.
  - cbn. lia.
  - vm_compute. reflexivity.
  - vm_compute. reflexivity.
  - vm_compute. discriminate.
  - vm_compute. reflexivity.
Defined.

(** ** The first frame of a run *)

Lemma played_key_unlocked (self : VirtualDrumkit) (frame : Frame)
    (self' : VirtualDrumkit) (played : list string) (key : string) :
  process_frame self frame = Some (self', played) ->
  key ∈ played ->
  exists sound : FingerSound.t,
    finger_sounds self !! key = Some sound
    /\ FingerSound.skill_level sound <= skill_level self.
Proof.
  intros Hrun Hin.
  pose (Inv := fun (s : VirtualDrumkit) (p : list string) =>
    keeps_configuration self s
    /\ forall k : string, k ∈ p ->
         exists sound : FingerSound.t,
           finger_sounds self !! k = Some sound
           /\ FingerSound.skill_level sound <= skill_level self).
  assert (HInv : Inv self' played).
  { eapply (process_frame_inv Inv); [| |exact Hrun].
    - intros s hs hl wy now p f s' p' [Hs Hp] Hstep. split.
      + eapply keeps_configuration_trans; [exact Hs|].
        eapply process_finger_keeps_configuration, Hstep.
      + apply process_finger_cases in Hstep
          as [[-> ->]|(snd0 & tip & Hk0 & Hok & _ & -> & ->)]; [exact Hp|].
        destruct (finger_step s hs snd0 _ now).2; [|exact Hp].
        intros k Hk. rewrite elem_of_app, list_elem_of_singleton in Hk.
        destruct Hk as [Hk| ->]; [now apply Hp|].
        destruct Hs as [Hset Hconf]. specialize (Hconf (finger_key hs f.1)).
        rewrite Hk0 in Hconf.
        inversion Hconf as [x a (_&_&_&_&_&_&Hskill) Hx Ha|]; subst.
        exists a. split; [reflexivity|].
        rewrite <- Hskill.
        replace (skill_level self) with (skill_level s)
          by (rewrite Hset; reflexivity).
        exact Hok.
    - split; [apply keeps_configuration_refl|].
      intros k Hk. inversion Hk. }
  destruct HInv as [_ Hp]. now apply Hp.
Qed.

Lemma main_setup_history (file_exists : string -> bool) (w : Widgets)
    (key : string) (sound : FingerSound.t) :
  finger_sounds (main_setup file_exists w) !! key = Some sound ->
  FingerSound.last_positions sound = [].
Proof.
  intros Hsound.
  destruct (main_setup_lookup file_exists w key)
    as (s2 & s3 & _ & _ & _ & Hlook).
  rewrite Hlook in Hsound.
  destruct (initial_finger_sounds !! key) as [sound0|] eqn:Hkey;
    [|discriminate].
  cbn in Hsound. inversion Hsound as [Hdef].
  destruct (initial_channel_is_made key sound0 Hkey) as (n & f & k & -> & _).
  destruct (load_sound_made file_exists n f k)
    as (_ & _ & _ & _ & L5 & _).
  destruct (volume_control_keeps s2 w
              (load_sound file_exists (FingerSound.make n f k)))
    as (_ & _ & _ & _ & V5 & _).
  cbn zeta in *. unfold enable_control.
  destruct (_ <=? skill_level s3); cbn; now rewrite V5, L5.
Qed.

(** X17. The first frame of a run of [main] plays nothing when it shows at
    most two hands: every channel enters it with an empty position history
    and is visited at most once, and one sample gives no motion. *)
Theorem first_frame_is_silent :
  forall (file_exists : string -> bool) (w : Widgets) (frame : Frame)
         (self' : VirtualDrumkit) (played : list string),
    (length (multi_hand_landmarks frame) <= 2)%nat ->
    process_frame (main_setup file_exists w) frame = Some (self', played) ->
    played = [].
Proof.
  intros file_exists w frame self' played Hlen Hrun.
  destruct played as [|key rest]; [reflexivity|exfalso].
  destruct (played_key_unlocked _ _ _ _ key Hrun) as (sound & Hkey & Hok);
    [set_solver|].
  pose proof (main_setup_history _ _ _ _ Hkey) as Hempty.
  destruct (main_setup_lookup file_exists w key) as (_ & _ & _ & _ & Hidx & _).
  unfold process_frame in Hrun.
  destruct (process_hands_channel _ _ _ _ _ _ _ key "" sound Hrun Hkey Hok)
    as (_ & _ & Hplays).
  rewrite Hidx in Hplays.
  pose proof (two_hands_visit_once (multi_hand_landmarks frame)
                (frame_time frame) key Hlen) as Hone.
  cbn [plays_of] in Hplays.
  rewrite bool_decide_eq_true_2 in Hplays by reflexivity.
  destruct (hands_visits initial_finger_indices 0
              (multi_hand_landmarks frame) (frame_time frame) key)
    as [|[y t] [|v more]]; [cbn in Hplays; lia| |cbn in Hone; lia].
  rewrite channel_run_cons in Hplays. cbn [snd firings channel_run] in Hplays.
  rewrite finger_step_fired in Hplays. unfold down_edge in Hplays.
  rewrite Hempty in Hplays.
  destruct (short_push_is_neutral (main_setup file_exists w) y) as [Hdown _].
  rewrite Hdown in Hplays. cbn in Hplays. lia.
Qed.

Lemma first_frame_is_silent_witness :
  logs_of_frames (main_setup (fun _ => true) (default_widgets EXPERT))
    [frame_at [hand_at 0.1%float 0.9%float; hand_at 0.1%float 0.9%float]
              1%float]
  = [[]].
Proof.
  assert (H : match process_frame
                      (main_setup (fun _ => true) (default_widgets EXPERT))
                      (frame_at [hand_at 0.1%float 0.9%float;
                                 hand_at 0.1%float 0.9%float] 1%float) with
              | Some (_, played) => played = []
              | None => False
              end).
  { destruct (process_frame
                (main_setup (fun _ => true) (default_widgets EXPERT))
                (frame_at [hand_at 0.1%float 0.9%float;
                           hand_at 0.1%float 0.9%float] 1%float))
      as [[s p]|] eqn:Hrun.
    - apply (first_frame_is_silent (fun _ => true) (default_widgets EXPERT)
               (frame_at [hand_at 0.1%float 0.9%float;
                          hand_at 0.1%float 0.9%float] 1%float) s p);
        [cbn; lia|exact Hrun].
    - vm_compute in Hrun. discriminate Hrun. }
  unfold logs_of_frames. cbn [process_frames].
  destruct (process_frame _ _) as [[s p]|]; [|destruct H].
  now subst p.
Defined.
